(** * iotex-core: buffered key-value store, contract-staking indexer, block commit

    A shallow embedding of three parts of the node:

    - [db]: [kvStoreWithBuffer] and its [flusher]
      (package db, the buffered store over a plain key-value store);
    - [contractstaking]: [Indexer], the block-driven index
      (blockindex/contractstaking/indexer.go);
    - [blockchain]: [ValidateBlock], [CommitBlock], [commitBlock]
      (blockchain/blockchain.go).

    Go values are modelled as follows.  A [uint64] is a [Z] in
    [0, 2^64), with the wrap-around of [+] written out ([add64]).  A [[]byte]
    is a [list byte]; the nil slice and the empty slice are both [[]].  A Go
    [error] is an [option error] whose [None] is [nil].  A method with a
    pointer receiver takes the receiver's state and returns the new state
    next to its Go results.  Locks, timers, metrics and logging are left out:
    every method is modelled as running alone. *)

From Stdlib Require Import ZArith List String Ascii Bool Lia DecimalString.
From Stdlib.Strings Require Import Byte.
From Stdlib Require Import DecimalN DecimalPos.
Import ListNotations.

Local Open Scope string_scope.
Local Open Scope list_scope.
Local Open Scope Z_scope.

(* ===================================================================== *)
(** * Go basics *)
(* ===================================================================== *)

Definition bytes := list byte.

(** [uint64] arithmetic. *)
Definition MaxUint64 : Z := 2 ^ 64 - 1.
Definition is_uint64 (z : Z) : Prop := 0 <= z <= MaxUint64.
Definition add64 (a b : Z) : Z := (a + b) mod 2 ^ 64.

(** [bytes.Equal]. *)
Fixpoint bytes_Equal (a b : bytes) : bool :=
  match a, b with
  | [], [] => true
  | x :: a', y :: b' => Byte.eqb x y && bytes_Equal a' b'
  | _, _ => false
  end.

(** [bytes.Compare]: lexicographic on unsigned bytes, result in {-1, 0, 1}. *)
Fixpoint bytes_Compare (a b : bytes) : Z :=
  match a, b with
  | [], [] => 0
  | [], _ :: _ => -1
  | _ :: _, [] => 1
  | x :: a', y :: b' =>
      match N.compare (Byte.to_N x) (Byte.to_N y) with
      | Lt => -1
      | Gt => 1
      | Eq => bytes_Compare a' b'
      end
  end.

(** [%x] on a byte slice and [%d] on a [uint64], as [fmt] prints them. *)
Definition hex_digit (n : N) : ascii :=
  match String.get (N.to_nat n) "0123456789abcdef" with
  | Some c => c
  | None => "0"%char
  end.

Fixpoint fmt_x (b : bytes) : string :=
  match b with
  | [] => EmptyString
  | x :: b' =>
      let n := Byte.to_N x in
      String (hex_digit (n / 16)%N) (String (hex_digit (n mod 16)%N) (fmt_x b'))
  end.

Definition fmt_d (z : Z) : string := NilEmpty.string_of_uint (N.to_uint (Z.to_N z)).

(** ** Errors (github.com/pkg/errors)

    A sentinel is a package-level [errors.New] value, compared by identity.
    [errors_Errorf] stands for any other base error, [errors_Wrap] for
    [errors.Wrap] and [errors.Wrapf] with the message already formatted. *)
Inductive sentinel : Type :=
| blockchain_ErrInvalidTipHeight
| blockchain_ErrInvalidBlock
| blockchain_ErrPaused
| filedao_ErrAlreadyExist
| blockdao_ErrAlreadyExist
| batch_ErrNotExist
| batch_ErrAlreadyDeleted
| batch_ErrOutOfBound
| db_ErrNotExist.

Inductive error : Type :=
| errors_New (s : sentinel)
| errors_Errorf (msg : string)
| errors_Wrap (e : error) (msg : string).

Fixpoint error_Cause (e : error) : error :=
  match e with
  | errors_Wrap e' _ => error_Cause e'
  | _ => e
  end.

(** [errors.Cause]; the cause of [nil] is [nil]. *)
Definition errors_Cause (err : option error) : option error :=
  option_map error_Cause err.

Definition sentinel_eqb (a b : sentinel) : bool :=
  match a, b with
  | blockchain_ErrInvalidTipHeight, blockchain_ErrInvalidTipHeight
  | blockchain_ErrInvalidBlock, blockchain_ErrInvalidBlock
  | blockchain_ErrPaused, blockchain_ErrPaused
  | filedao_ErrAlreadyExist, filedao_ErrAlreadyExist
  | blockdao_ErrAlreadyExist, blockdao_ErrAlreadyExist
  | batch_ErrNotExist, batch_ErrNotExist
  | batch_ErrAlreadyDeleted, batch_ErrAlreadyDeleted
  | batch_ErrOutOfBound, batch_ErrOutOfBound
  | db_ErrNotExist, db_ErrNotExist => true
  | _, _ => false
  end.

(** [errors.Cause(err) == s] for a sentinel [s]. *)
Definition cause_is (err : option error) (s : sentinel) : bool :=
  match errors_Cause err with
  | Some (errors_New s') => sentinel_eqb s' s
  | _ => false
  end.

(** A Go result pair [(T, error)] of which the caller reads the value only
    when the error is nil. *)
Inductive result (A : Type) : Type :=
| Ok (a : A)
| Err (e : error).
Arguments Ok {A} a.
Arguments Err {A} e.

(* ===================================================================== *)
(** * Package db/batch *)
(* ===================================================================== *)

Module batch.

Inductive WriteType : Type := Put | Delete.

Record WriteInfo : Type := mkWriteInfo {
  writeType : WriteType;
  namespace : string;
  key : bytes;
  value : bytes;
  errorMessage : string
}.

(** A [KVStoreBatch] is its write queue. *)
Definition KVStoreBatch : Type := list WriteInfo.

Definition WriteInfoTranslate : Type := WriteInfo -> option WriteInfo.

(** [KVStoreBatch.Put]: one more write at the end of the queue. *)
Definition batch_Put (b : KVStoreBatch) (ns : string) (k v : bytes) (msg : string)
  : KVStoreBatch :=
  b ++ [mkWriteInfo Put ns k v msg].

(** Modelled from the spec: the [CachedBatch] interface, whose
    implementation is not among the sources.  The write buffer is "an
    ordered, appendable log of (namespace, key, value-or-tombstone,
    write-order) entries"; "later entries for the same key shadow earlier
    ones on read".  A tombstone carries no value. *)
Definition CachedBatch : Type := list WriteInfo.

Definition CachedBatch_Put (cb : CachedBatch) (ns : string) (k v : bytes) (msg : string)
  : CachedBatch :=
  cb ++ [mkWriteInfo Put ns k v msg].

Definition CachedBatch_Delete (cb : CachedBatch) (ns : string) (k : bytes) (msg : string)
  : CachedBatch :=
  cb ++ [mkWriteInfo Delete ns k [] msg].

Definition same_key (ns : string) (k : bytes) (e : WriteInfo) : bool :=
  String.eqb (namespace e) ns && bytes_Equal (key e) k.

(** The latest entry of the key decides: its value, [ErrAlreadyDeleted]
    for a tombstone, [ErrNotExist] when the log has no entry of the key.
    [newest_first] is the log read from its end. *)
Fixpoint lookup_newest (newest_first : list WriteInfo) (ns : string) (k : bytes)
  : bytes * option error :=
  match newest_first with
  | [] => ([], Some (errors_New batch_ErrNotExist))
  | e :: older =>
      if same_key ns k e then
        match writeType e with
        | Put => (value e, None)
        | Delete => ([], Some (errors_New batch_ErrAlreadyDeleted))
        end
      else lookup_newest older ns k
  end.

Definition CachedBatch_Get (cb : CachedBatch) (ns : string) (k : bytes)
  : bytes * option error :=
  lookup_newest (rev cb) ns k.

(** No entry of the log is a write of the key. *)
Definition no_entry_of (ns : string) (k : bytes) (log : list WriteInfo) : Prop :=
  Forall (fun e => same_key ns k e = false) log.

Definition CachedBatch_Size (cb : CachedBatch) : nat := List.length cb.

Definition CachedBatch_Entry (cb : CachedBatch) (i : nat) : result WriteInfo :=
  match nth_error cb i with
  | Some e => Ok e
  | None => Err (errors_New batch_ErrOutOfBound)
  end.

(** [Translate]: a copy of the queue, every entry passed through the
    translation when there is one; the buffer itself is left as it is. *)
Fixpoint translate_queue (wit : WriteInfoTranslate) (q : list WriteInfo) : list WriteInfo :=
  match q with
  | [] => []
  | wi :: q' =>
      match wit wi with
      | Some wi' => wi' :: translate_queue wit q'
      | None => translate_queue wit q'
      end
  end.

Definition CachedBatch_Translate (cb : CachedBatch) (wit : option WriteInfoTranslate)
  : KVStoreBatch :=
  match wit with
  | None => cb
  | Some f => translate_queue f cb
  end.

Definition CachedBatch_ClearAndUnlock (cb : CachedBatch) : CachedBatch := [].

Definition CachedBatch_Append (cb : CachedBatch) (b : KVStoreBatch) : CachedBatch :=
  cb ++ b.

End batch.

(* ===================================================================== *)
(** * Package db: the buffered store *)
(* ===================================================================== *)

(** A panic of the Go runtime (here: a slice bound out of range) is an
    outcome of its own, next to a normal return. *)
Inductive outcome (A : Type) : Type :=
| Returns (a : A)
| Panics.
Arguments Returns {A} a.
Arguments Panics {A}.

Module db.
Import batch.

(** [Condition]: the predicate of a range query, on key and value. *)
Definition Condition : Type := bytes -> bytes -> bool.

(** The [KVStore] interface, as far as the buffered store and the indexer
    call it.  [S] is the state of the store; [Get] and [Filter] read it,
    [WriteBatch] yields the state after the write. *)
Class KVStore (S : Type) : Type := {
  store_Get : S -> string -> bytes -> bytes * option error;
  store_Filter : S -> string -> Condition -> bytes -> bytes
                 -> list bytes * list bytes * option error;
  store_WriteBatch : S -> KVStoreBatch -> S * option error
}.

Section WithStore.
Context {S : Type} `{KVStore S}.

Record kvStoreWithBuffer : Type := mkKvStoreWithBuffer {
  store : S;
  buffer : CachedBatch
}.

Record flusher : Type := mkFlusher {
  kvb : kvStoreWithBuffer;
  flushTranslate : option WriteInfoTranslate
}.

Definition Flush (f : flusher) : flusher * option error :=
  let '(store', err) :=
    store_WriteBatch (store (kvb f))
      (CachedBatch_Translate (buffer (kvb f)) (flushTranslate f)) in
  match err with
  | Some e =>
      (mkFlusher (mkKvStoreWithBuffer store' (buffer (kvb f))) (flushTranslate f),
       Some e)
  | None =>
      (mkFlusher
         (mkKvStoreWithBuffer store' (CachedBatch_ClearAndUnlock (buffer (kvb f))))
         (flushTranslate f),
       None)
  end.

Definition BaseKVStore (f : flusher) : S := store (kvb f).

Definition Size (kvb : kvStoreWithBuffer) : nat := CachedBatch_Size (buffer kvb).

(** What [Get] hands on from the store when the buffer has no entry of
    the key: the store's value, and the store's error, which is reworded
    only when its cause is the buffer's own [ErrAlreadyDeleted]. *)
Definition from_store (r : bytes * option error) (ns : string) (k : bytes)
  : bytes * option error :=
  (fst r,
   if cause_is (snd r) batch_ErrAlreadyDeleted then
     Some (errors_Wrap (errors_New db_ErrNotExist)
             ("failed to get key " ++ fmt_x k ++ " in " ++ ns
              ++ ", deleted in buffer level")%string)
   else snd r).

Definition Get (kvb : kvStoreWithBuffer) (ns : string) (key : bytes)
  : bytes * option error :=
  let '(value, err) := CachedBatch_Get (buffer kvb) ns key in
  let '(value, err) :=
    if cause_is err batch_ErrNotExist then store_Get (store kvb) ns key
    else (value, err) in
  let err :=
    if cause_is err batch_ErrAlreadyDeleted then
      Some (errors_Wrap (errors_New db_ErrNotExist)
              ("failed to get key " ++ fmt_x key ++ " in " ++ ns
               ++ ", deleted in buffer level")%string)
    else err in
  (value, err).

Definition Put (kvb : kvStoreWithBuffer) (ns : string) (key value : bytes)
  : kvStoreWithBuffer * option error :=
  (mkKvStoreWithBuffer (store kvb)
     (CachedBatch_Put (buffer kvb) ns key value
        ("failed to put " ++ fmt_x key ++ " in " ++ ns)%string),
   None).

Definition MustPut (kvb : kvStoreWithBuffer) (ns : string) (key value : bytes)
  : kvStoreWithBuffer :=
  mkKvStoreWithBuffer (store kvb)
    (CachedBatch_Put (buffer kvb) ns key value
       ("failed to put " ++ fmt_x key ++ " in " ++ ns)%string).

Definition Delete (kvb : kvStoreWithBuffer) (ns : string) (key : bytes)
  : kvStoreWithBuffer * option error :=
  (mkKvStoreWithBuffer (store kvb)
     (CachedBatch_Delete (buffer kvb) ns key
        ("failed to delete " ++ fmt_x key ++ " in " ++ ns)%string),
   None).

Definition MustDelete (kvb : kvStoreWithBuffer) (ns : string) (key : bytes)
  : kvStoreWithBuffer :=
  mkKvStoreWithBuffer (store kvb)
    (CachedBatch_Delete (buffer kvb) ns key
       ("failed to delete " ++ fmt_x key ++ " in " ++ ns)%string).

(** [for i := range fk { if bytes.Equal(fk[i], k) { ... } }]: the first
    index whose key equals [k]. *)
Fixpoint first_index (k : bytes) (fk : list bytes) : option nat :=
  match fk with
  | [] => None
  | k' :: fk' =>
      if bytes_Equal k' k then Some O
      else option_map Datatypes.S (first_index k fk')
  end.

(** [append(l[:i], l[i+1:]...)]; [l[i+1:]] panics unless [i < len(l)]. *)
Definition cut {A : Type} (i : nat) (l : list A) : outcome (list A) :=
  if (i <? List.length l)%nat then Returns (firstn i l ++ skipn (Datatypes.S i) l)
  else Panics.

(** The inner loop of both cases of the switch: drop the first entry of
    the same key from the key list and the value list, then [break]. *)
Definition drop_same_key (k : bytes) (fk fv : list bytes)
  : outcome (list bytes * list bytes) :=
  match first_index k fk with
  | None => Returns (fk, fv)
  | Some i =>
      match cut i fk, cut i fv with
      | Returns fk', Returns fv' => Returns (fk', fv')
      | _, _ => Panics
      end
  end.

(** One round of the loop over the buffer, for the entry read. *)
Definition Filter_entry (ns : string) (cond : Condition) (minKey maxKey : bytes)
    (entry : WriteInfo) (fk fv : list bytes) : outcome (list bytes * list bytes) :=
  let checkMin := (0 <? List.length minKey)%nat in
  let checkMax := (0 <? List.length maxKey)%nat in
  if negb (String.eqb (namespace entry) ns) then Returns (fk, fv)
  else
    let k := key entry in
    let v := value entry in
    if checkMin && (bytes_Compare k minKey =? -1) then Returns (fk, fv)
    else if checkMax && (bytes_Compare k maxKey =? 1) then Returns (fk, fv)
    else if cond k v then
      match writeType entry with
      | batch.Put =>
          match drop_same_key k fk fv with
          | Returns (fk', fv') => Returns (fk' ++ [k], fv' ++ [v])
          | Panics => Panics
          end
      | batch.Delete => drop_same_key k fk fv
      end
    else Returns (fk, fv).

(** [for i := 0; i < kvb.buffer.Size(); i++]: [todo] rounds are left,
    the next one reads entry [i]. *)
Fixpoint Filter_loop (kvb : kvStoreWithBuffer) (ns : string) (cond : Condition)
    (minKey maxKey : bytes) (todo i : nat) (fk fv : list bytes)
  : outcome (list bytes * list bytes * option error) :=
  match todo with
  | O => Returns (fk, fv, None)
  | Datatypes.S todo' =>
      match CachedBatch_Entry (buffer kvb) i with
      | Err e => Returns ([], [], Some e)
      | Ok entry =>
          match Filter_entry ns cond minKey maxKey entry fk fv with
          | Returns (fk', fv') =>
              Filter_loop kvb ns cond minKey maxKey todo' (Datatypes.S i) fk' fv'
          | Panics => Panics
          end
      end
  end.

Definition Filter (kvb : kvStoreWithBuffer) (ns : string) (cond : Condition)
    (minKey maxKey : bytes) : outcome (list bytes * list bytes * option error) :=
  let '(fk, fv, err) := store_Filter (store kvb) ns cond minKey maxKey in
  match err with
  | Some e => Returns (fk, fv, Some e)
  | None =>
      Filter_loop kvb ns cond minKey maxKey (CachedBatch_Size (buffer kvb)) O fk fv
  end.

Definition WriteBatch (kvb : kvStoreWithBuffer) (b : KVStoreBatch)
  : kvStoreWithBuffer * option error :=
  (mkKvStoreWithBuffer (store kvb) (CachedBatch_Append (buffer kvb) b), None).

End WithStore.

Arguments kvStoreWithBuffer S : clear implicits.
Arguments flusher S : clear implicits.

End db.

(* ===================================================================== *)
(** * Package blockchain/block, as far as the indexer and the chain read it *)
(* ===================================================================== *)

Module block.

Definition Hash256 : Type := bytes.

(** [action.Log]. *)
Record Log : Type := mkLog {
  Address : string;
  Data : bytes
}.

(** [action.Receipt]. *)
Record Receipt : Type := mkReceipt {
  Status : Z;
  Logs : list Log
}.

(** [block.Header], through its getters.  [HashBlock] and
    [VerifySignature] are what the methods of these names compute from
    the header. *)
Record Header : Type := mkHeader {
  Height : Z;
  Timestamp : Z;
  PrevHash : Hash256;
  HashBlock : Hash256;
  GasUsed : Z;
  BaseFee : option Z;
  BlobGasUsed : Z;
  ExcessBlobGas : Z;
  PublicKey : bytes;
  ProducerAddress : option string;
  VerifySignature : bool
}.

(** [block.Block].  [VerifyTxRoot] is the result of the method of this
    name; [ProducerAddress] of the header is [PublicKey().Address()]. *)
Record Block : Type := mkBlock {
  header : Header;
  Actions : list bytes;
  Receipts : list Receipt;
  VerifyTxRoot : option error
}.

End block.

(** [iotextypes.ReceiptStatus_Success]. *)
Definition ReceiptStatus_Success : Z := 1.

(** [byteutil.Uint64ToBytesBigEndian]: the eight bytes of a [uint64], most
    significant first. *)
Definition byte_of_Z (z : Z) : byte :=
  match Byte.of_N (Z.to_N (z mod 256)) with
  | Some b => b
  | None => x00
  end.

Definition Uint64ToBytesBigEndian (z : Z) : bytes :=
  map (fun i => byte_of_Z (Z.shiftr z (8 * i))) [7; 6; 5; 4; 3; 2; 1; 0].

(* ===================================================================== *)
(** * Package blockindex/contractstaking: the indexer *)
(* ===================================================================== *)

Module contractstaking.
Import batch db.

Definition maxBlockNumber : Z := MaxUint64.

(** [Config]; the two function fields are handed on to the cache and play
    no part in the indexer's own code. *)
Record Config : Type := mkConfig {
  ContractAddress : string;
  ContractDeployHeight : Z
}.

(** The cache of the indexer ([contractStakingCache]), through the methods
    the indexer calls.  A method that writes the cache yields the cache
    after the call, also when it fails. *)
Class CacheOps (S Cache Delta TBucket TBucketType : Type) : Type := {
  newContractStakingCache : Config -> Cache;
  cache_Height : Cache -> Z;
  cache_CandidateVotes : Cache -> string -> Z -> Z * option error;
  cache_Buckets : Cache -> Z -> list TBucket * option error;
  cache_Bucket : Cache -> Z -> Z -> option TBucket * bool * option error;
  cache_BucketsByIndices : Cache -> list Z -> Z -> list TBucket * option error;
  cache_BucketsByCandidate : Cache -> string -> Z -> list TBucket * option error;
  cache_TotalBucketCount : Cache -> Z -> Z * option error;
  cache_ActiveBucketTypes : Cache -> Z -> list (Z * TBucketType) * option error;
  cache_Merge : Cache -> Delta -> Z -> Cache * option error;
  cache_LoadFromDB : Cache -> S -> Cache * option error
}.

(** The per-block event handler ([contractStakingEventHandler]).  It works
    on a layer of its own over the cache it is created from; the cache is
    written by [Merge] only. *)
Class HandlerOps (Cache Delta Handler : Type) : Type := {
  newContractStakingEventHandler : Cache -> Handler;
  HandleEvent : Handler -> Z -> block.Log -> Handler * option error;
  Result : Handler -> KVStoreBatch * Delta
}.

Section WithCollaborators.
Context {S Cache Delta Handler TBucket TBucketType : Type}.
Context `{KVStore S}
        `{CacheOps S Cache Delta TBucket TBucketType}
        `{HandlerOps Cache Delta Handler}.

(** Namespace and key of the persisted height, constants of the
    package declared outside indexer.go. *)
Variable _StakingNS : string.
Variable _stakingHeightKey : bytes.

Record Indexer : Type := mkIndexer {
  kvstore : S;
  cache : Cache;
  config : Config
}.

Definition Height (s : Indexer) : Z * option error :=
  (cache_Height (cache s), None).

Definition StartHeight (s : Indexer) : Z := ContractDeployHeight (config s).

Definition isIgnored (s : Indexer) (height : Z) : bool :=
  height <? ContractDeployHeight (config s).

Definition CandidateVotes (s : Indexer) (candidate : string) (height : Z)
  : Z * option error :=
  if isIgnored s height then (0, None)
  else cache_CandidateVotes (cache s) candidate height.

Definition Buckets (s : Indexer) (height : Z) : list TBucket * option error :=
  if isIgnored s height then ([], None)
  else cache_Buckets (cache s) height.

Definition Bucket (s : Indexer) (id height : Z)
  : option TBucket * bool * option error :=
  if isIgnored s height then (None, false, None)
  else cache_Bucket (cache s) id height.

Definition BucketsByIndices (s : Indexer) (indices : list Z) (height : Z)
  : list TBucket * option error :=
  if isIgnored s height then ([], None)
  else cache_BucketsByIndices (cache s) indices height.

Definition BucketsByCandidate (s : Indexer) (candidate : string) (height : Z)
  : list TBucket * option error :=
  if isIgnored s height then ([], None)
  else cache_BucketsByCandidate (cache s) candidate height.

Definition TotalBucketCount (s : Indexer) (height : Z) : Z * option error :=
  if isIgnored s height then (0, None)
  else cache_TotalBucketCount (cache s) height.

(** The map of active types is read as the list of its entries, in the
    order the [range] visits them. *)
Definition BucketTypes (s : Indexer) (height : Z) : list TBucketType * option error :=
  if isIgnored s height then ([], None)
  else
    let '(btMap, err) := cache_ActiveBucketTypes (cache s) height in
    match err with
    | Some e => ([], Some e)
    | None => (map snd btMap, None)
    end.

Definition loadFromDB (s : Indexer) : Indexer * option error :=
  let '(c, err) := cache_LoadFromDB (cache s) (kvstore s) in
  (mkIndexer (kvstore s) c (config s), err).

Definition reloadCache (s : Indexer) : Indexer * option error :=
  loadFromDB (mkIndexer (kvstore s) (newContractStakingCache (config s)) (config s)).

(** The cache a reload leaves: a new cache, loaded from the store. *)
Definition reloaded (cfg : Config) (st : S) : Cache :=
  fst (cache_LoadFromDB (newContractStakingCache cfg) st).

(** The batch [commit] writes: the handler's batch and, last, the height. *)
Definition committed_batch (handler : Handler) (height : Z) : KVStoreBatch :=
  fst (Result handler)
  ++ [mkWriteInfo batch.Put _StakingNS _stakingHeightKey
        (Uint64ToBytesBigEndian height) "failed to put height"].

Definition commit (s : Indexer) (handler : Handler) (height : Z)
  : Indexer * option error :=
  let '(batch, delta) := Result handler in
  (* update cache *)
  let '(c, err) := cache_Merge (cache s) delta height in
  let s := mkIndexer (kvstore s) c (config s) in
  match err with
  | Some e => (fst (reloadCache s), Some e)
  | None =>
      (* update db *)
      let batch :=
        batch_Put batch _StakingNS _stakingHeightKey
          (Uint64ToBytesBigEndian height) "failed to put height" in
      let '(st, err) := store_WriteBatch (kvstore s) batch in
      let s := mkIndexer st (cache s) (config s) in
      match err with
      | Some e => (fst (reloadCache s), Some e)
      | None => (s, None)
      end
  end.

(** The two nested loops over the receipts and their logs; the first
    error of [HandleEvent] ends them. *)
Fixpoint handle_logs (s : Indexer) (handler : Handler) (height : Z)
    (logs : list block.Log) : Handler * option error :=
  match logs with
  | [] => (handler, None)
  | log :: logs' =>
      if negb (String.eqb (block.Address log) (ContractAddress (config s))) then
        handle_logs s handler height logs'
      else
        let '(handler', err) := HandleEvent handler height log in
        match err with
        | Some e => (handler', Some e)
        | None => handle_logs s handler' height logs'
        end
  end.

Fixpoint handle_receipts (s : Indexer) (handler : Handler) (height : Z)
    (receipts : list block.Receipt) : Handler * option error :=
  match receipts with
  | [] => (handler, None)
  | receipt :: receipts' =>
      if negb (block.Status receipt =? ReceiptStatus_Success) then
        handle_receipts s handler height receipts'
      else
        let '(handler', err) := handle_logs s handler height (block.Logs receipt) in
        match err with
        | Some e => (handler', Some e)
        | None => handle_receipts s handler' height receipts'
        end
  end.

Definition expectHeight (s : Indexer) : Z :=
  let expectHeight := add64 (cache_Height (cache s)) 1 in
  if expectHeight <? ContractDeployHeight (config s)
  then ContractDeployHeight (config s)
  else expectHeight.

(** What [PutBlock] does with a block of the expected height. *)
Definition process (s : Indexer) (blk : block.Block) : Indexer * option error :=
  let height := block.Height (block.header blk) in
  (* new event handler for this block *)
  let handler := newContractStakingEventHandler (cache s) in
  (* handle events of block *)
  let '(handler, err) := handle_receipts s handler height (block.Receipts blk) in
  match err with
  | Some e => (s, Some e)
  | None => commit s handler height (* commit the result *)
  end.

Definition PutBlock (s : Indexer) (blk : block.Block) : Indexer * option error :=
  let expectHeight := expectHeight s in
  let height := block.Height (block.header blk) in
  if height <? expectHeight then (s, None)
  else if height >? expectHeight then
    (s, Some (errors_Errorf
                ("invalid block height " ++ fmt_d height ++ ", expect "
                 ++ fmt_d expectHeight)%string))
  else process s blk.

End WithCollaborators.

Arguments Indexer S Cache : clear implicits.

End contractstaking.

(* ===================================================================== *)
(** * Package blockchain *)
(* ===================================================================== *)

(** [protocol.TipInfo], [protocol.BlockCtx] and [protocol.BlockchainCtx]. *)
Module TipInfo.
Record t : Type := mk {
  Height : Z;
  GasUsed : Z;
  Hash : block.Hash256;
  Timestamp : Z;
  BaseFee : option Z;
  BlobGasUsed : Z;
  ExcessBlobGas : Z
}.
End TipInfo.

Module BlockCtx.
Record t : Type := mk {
  BlockHeight : Z;
  BlockTimeStamp : Z;
  GasLimit : Z;
  Producer : option string;
  BaseFee : option Z;
  ExcessBlobGas : Z;
  SkipSidecarValidation : bool
}.
End BlockCtx.

Module BlockchainCtx.
Record t : Type := mk {
  Tip : TipInfo.t;
  ChainID : Z;
  EvmNetworkID : Z
}.
End BlockchainCtx.

(** [genesis.Genesis], through what the chain reads of it. *)
Module genesis.
Record Genesis : Type := mkGenesis {
  Hash : block.Hash256;
  Timestamp : Z;
  BlockGasLimitByHeight : Z -> Z
}.
End genesis.

(** A [context.Context] is the values stored in it.  The feature flags of
    [WithFeatureCtx] and [WithFeatureWithHeightCtx] are a function of the
    values already there and are not stored again; the two closures over
    the archive in [BlockchainCtx] ([GetBlockHash], [GetBlockTime]) are left
    out. *)
Record Context : Type := mkContext {
  blockchainCtx : option BlockchainCtx.t;
  genesisCtx : option genesis.Genesis;
  blockCtx : option BlockCtx.t
}.

Definition context_Background : Context := mkContext None None None.

Definition WithBlockCtx (ctx : Context) (b : BlockCtx.t) : Context :=
  mkContext (blockchainCtx ctx) (genesisCtx ctx) (Some b).

Module blockchain.

Definition Subscriber : Type := string.

(** The block archive ([blockdao.BlockDAO]), through the methods the chain
    calls.  [D] is the state of the archive; the three queries read it,
    [PutBlock] yields the state after the call. *)
Class BlockDAO (D : Type) : Type := {
  dao_Height : D -> result Z;
  dao_GetBlockHash : D -> Z -> result block.Hash256;
  dao_HeaderByHeight : D -> Z -> result block.Header;
  dao_PutBlock : D -> Context -> block.Block -> D * option error
}.

(** Modelled from the spec: the [PubSubManager] (blockchain/pubsub.go is
    not among the sources).  Listeners are kept in registration order;
    sending a block "invokes all registered block subscribers
    synchronously, in registration order, passing them the committed
    block".  [received] is the log of these invocations, oldest first. *)
Record PubSub : Type := mkPubSub {
  blocklisteners : list Subscriber;
  received : list (Subscriber * block.Block)
}.

Definition AddBlockListener (ps : PubSub) (s : Subscriber) : PubSub * option error :=
  (mkPubSub (blocklisteners ps ++ [s]) (received ps), None).

Definition SendBlockToSubscribers (ps : PubSub) (blk : block.Block) : PubSub :=
  mkPubSub (blocklisteners ps)
    (received ps ++ map (fun s => (s, blk)) (blocklisteners ps)).

(** [Config], the two identifiers the chain reads. *)
Record Config : Type := mkConfig {
  ID : Z;
  EVMNetworkID : Z
}.

Record BlockValidationCfg : Type := mkBlockValidationCfg {
  skipSidecarValidation : bool
}.

Definition BlockValidationOption : Type := BlockValidationCfg -> BlockValidationCfg.

Definition SkipSidecarValidationOption : BlockValidationOption :=
  fun _ => mkBlockValidationCfg true.

Definition ZeroHash256 : block.Hash256 := repeat x00 32.

Section WithArchive.
Context {D : Type} `{BlockDAO D}.

(** [protocol.VerifyEIP1559Header], a function of another package. *)
Variable VerifyEIP1559Header :
  genesis.Genesis -> TipInfo.t -> block.Header -> option error.

Record blockchain : Type := mk {
  dao : D;
  config : Config;
  genesis_ : genesis.Genesis;
  blockValidator : option (Context -> block.Block -> option error);
  pubSubManager : option PubSub;
  pause : bool
}.

Definition with_dao (bc : blockchain) (d : D) : blockchain :=
  mk d (config bc) (genesis_ bc) (blockValidator bc) (pubSubManager bc) (pause bc).

Definition with_pubSubManager (bc : blockchain) (ps : option PubSub) : blockchain :=
  mk (dao bc) (config bc) (genesis_ bc) (blockValidator bc) ps (pause bc).

Definition ChainID (bc : blockchain) : Z := ID (config bc).
Definition EvmNetworkID (bc : blockchain) : Z := EVMNetworkID (config bc).

Definition Pause (bc : blockchain) (p : bool) : blockchain :=
  mk (dao bc) (config bc) (genesis_ bc) (blockValidator bc) (pubSubManager bc) p.

(** [TipHash]: the zero hash when the archive fails. *)
Definition TipHash (bc : blockchain) : block.Hash256 :=
  match dao_Height (dao bc) with
  | Err _ => ZeroHash256
  | Ok tipHeight =>
      match dao_GetBlockHash (dao bc) tipHeight with
      | Err _ => ZeroHash256
      | Ok tipHash => tipHash
      end
  end.

(** [TipHeight]: [log.L().Panic] when the archive fails. *)
Definition TipHeight (bc : blockchain) : outcome Z :=
  match dao_Height (dao bc) with
  | Err _ => Panics
  | Ok tipHeight => Returns tipHeight
  end.

Definition tipInfo (bc : blockchain) (tipHeight : Z) : result TipInfo.t :=
  if tipHeight =? 0 then
    Ok (TipInfo.mk 0 0 (genesis.Hash (genesis_ bc))
          (genesis.Timestamp (genesis_ bc)) None 0 0)
  else
    match dao_HeaderByHeight (dao bc) tipHeight with
    | Err e => Err e
    | Ok header =>
        Ok (TipInfo.mk tipHeight (block.GasUsed header) (block.HashBlock header)
              (block.Timestamp header) (block.BaseFee header)
              (block.BlobGasUsed header) (block.ExcessBlobGas header))
    end.

Definition context (bc : blockchain) (ctx : Context) (height : Z) : result Context :=
  match tipInfo bc height with
  | Err e => Err e
  | Ok tip =>
      Ok (mkContext
            (Some (BlockchainCtx.mk tip (ChainID bc) (EvmNetworkID bc)))
            (Some (genesis_ bc))
            (blockCtx ctx))
  end.

Definition contextWithBlock (bc : blockchain) (ctx : Context)
    (producer : option string) (height timestamp : Z) (baseFee : option Z)
    (blobgas : Z) : Context :=
  WithBlockCtx ctx
    (BlockCtx.mk height timestamp
       (genesis.BlockGasLimitByHeight (genesis_ bc) height)
       producer baseFee blobgas false).

(** [ValidateBlock] holds the read lock and writes nothing; the state
    is returned next to the error to say so. *)
Definition ValidateBlock (bc : blockchain) (blk : option block.Block)
    (opts : list BlockValidationOption) : blockchain * option error :=
  match blk with
  | None => (bc, Some (errors_New blockchain_ErrInvalidBlock))
  | Some blk =>
  let hdr := block.header blk in
  match dao_Height (dao bc) with
  | Err e => (bc, Some e)
  | Ok tipHeight =>
  match tipInfo bc tipHeight with
  | Err e => (bc, Some e)
  | Ok tip =>
  (* verify new block has height incremented by 1 *)
  if negb (block.Height hdr =? 0)
     && negb (block.Height hdr =? add64 (TipInfo.Height tip) 1) then
    (bc, Some (errors_Wrap (errors_New blockchain_ErrInvalidTipHeight)
                 ("wrong block height " ++ fmt_d (block.Height hdr)
                  ++ ", expecting " ++ fmt_d (add64 (TipInfo.Height tip) 1))%string))
  (* verify new block has correctly linked to current tip *)
  else if negb (bytes_Equal (block.PrevHash hdr) (TipInfo.Hash tip)) then
    (bc, Some (errors_Wrap (errors_New blockchain_ErrInvalidBlock)
                 ("wrong prev hash " ++ fmt_x (block.PrevHash hdr)
                  ++ ", expecting " ++ fmt_x (TipInfo.Hash tip))%string))
  else
  (* verify EIP1559 header (baseFee adjustment) *)
  match (match block.BaseFee hdr with
         | Some _ => VerifyEIP1559Header (genesis_ bc) tip hdr
         | None => None
         end) with
  | Some e =>
      (bc, Some (errors_Wrap e "failed to verify EIP1559 header (baseFee adjustment)"))
  | None =>
  if negb (block.VerifySignature hdr) then
    (bc, Some (errors_Errorf
                 ("failed to verify block's signature with public key: "
                  ++ fmt_x (block.PublicKey hdr))%string))
  else
  match block.VerifyTxRoot blk with
  | Some e => (bc, Some e)
  | None =>
  match block.ProducerAddress hdr with
  | None => (bc, Some (errors_Errorf "failed to get address"))
  | Some producerAddr =>
  match context bc context_Background tipHeight with
  | Err e => (bc, Some e)
  | Ok ctx =>
      let cfg := fold_left (fun cfg opt => opt cfg) opts (mkBlockValidationCfg false) in
      let ctx :=
        WithBlockCtx ctx
          (BlockCtx.mk (block.Height hdr) (block.Timestamp hdr)
             (genesis.BlockGasLimitByHeight (genesis_ bc) (block.Height hdr))
             (Some producerAddr) (block.BaseFee hdr) (block.ExcessBlobGas hdr)
             (skipSidecarValidation cfg)) in
      match blockValidator bc with
      | None => (bc, None)
      | Some validate => (bc, validate ctx blk)
      end
  end end end end end end end.

Definition emitToSubscribers (bc : blockchain) (blk : block.Block) : blockchain :=
  match pubSubManager bc with
  | None => bc
  | Some ps => with_pubSubManager bc (Some (SendBlockToSubscribers ps blk))
  end.

(** [commitBlock] commits a block to the chain. *)
Definition commitBlock (bc : blockchain) (blk : block.Block)
  : blockchain * option error :=
  let hdr := block.header blk in
  match dao_Height (dao bc) with
  | Err e => (bc, Some e)
  | Ok tipHeight =>
  match context bc context_Background tipHeight with
  | Err e => (bc, Some e)
  | Ok ctx =>
      let ctx :=
        contextWithBlock bc ctx (block.ProducerAddress hdr) (block.Height hdr)
          (block.Timestamp hdr) (block.BaseFee hdr) (block.ExcessBlobGas hdr) in
      (* write block into DB *)
      let '(d, err) := dao_PutBlock (dao bc) ctx blk in
      let bc := with_dao bc d in
      match errors_Cause err with
      | Some (errors_New filedao_ErrAlreadyExist)
      | Some (errors_New blockdao_ErrAlreadyExist) => (bc, None)
      | None =>
          (* emit block to all block subscribers *)
          (emitToSubscribers bc blk, None)
      | Some _ => (bc, err)
      end
  end end.

(** The context [commitBlock] hands to the archive with the block. *)
Definition commit_context (bc : blockchain) (ctx : Context) (blk : block.Block)
  : Context :=
  let hdr := block.header blk in
  contextWithBlock bc ctx (block.ProducerAddress hdr) (block.Height hdr)
    (block.Timestamp hdr) (block.BaseFee hdr) (block.ExcessBlobGas hdr).

(** The switch of [commitBlock] on the cause of [PutBlock]'s error, on the
    chain whose archive is the one [PutBlock] left. *)
Definition after_PutBlock (bc : blockchain) (blk : block.Block) (d : D)
    (err : option error) : blockchain * option error :=
  match errors_Cause err with
  | Some (errors_New filedao_ErrAlreadyExist)
  | Some (errors_New blockdao_ErrAlreadyExist) => (with_dao bc d, None)
  | None => (emitToSubscribers (with_dao bc d) blk, None)
  | Some _ => (with_dao bc d, err)
  end.

(** [CommitBlock] validates and appends a block to the chain. *)
Definition CommitBlock (bc : blockchain) (blk : block.Block)
  : blockchain * option error :=
  if pause bc then
    (bc, Some (errors_Wrap (errors_New blockchain_ErrPaused)
                 ("blockchain is paused, cannot commit block "
                  ++ fmt_d (block.Height (block.header blk)) ++ ", "
                  ++ fmt_x (block.HashBlock (block.header blk)))%string))
  else commitBlock bc blk.

(** [AddSubscriber]; a chain built by [NewBlockchain] always has a
    manager, without one the call dereferences nil. *)
Definition AddSubscriber (bc : blockchain) (s : option Subscriber)
  : outcome (blockchain * option error) :=
  match s with
  | None => Returns (bc, Some (errors_Errorf "subscriber could not be nil"))
  | Some s =>
      match pubSubManager bc with
      | None => Panics
      | Some ps =>
          let '(ps', err) := AddBlockListener ps s in
          Returns (with_pubSubManager bc (Some ps'), err)
      end
  end.

(** The subscribers registered with the chain, and the deliveries made
    so far. *)
Definition subscribers (bc : blockchain) : list Subscriber :=
  match pubSubManager bc with
  | None => []
  | Some ps => blocklisteners ps
  end.

Definition notifications (bc : blockchain) : list (Subscriber * block.Block) :=
  match pubSubManager bc with
  | None => []
  | Some ps => received ps
  end.

End WithArchive.

Arguments blockchain D : clear implicits.

End blockchain.

(* ===================================================================== *)
(** * In-memory collaborators

    Small implementations of the three interfaces above, in the way the
    repository's tests use in-memory stores and mocks.  They serve the
    examples that run the methods on concrete inputs. *)
(* ===================================================================== *)

Module fixtures.
Import batch db.

(** ** A key-value store in memory, whose writes can be made to fail *)
Record memStore : Type := mkMemStore {
  rows : list (string * bytes * bytes);
  writeError : option error
}.

Definition row_is (ns : string) (k : bytes) (r : string * bytes * bytes) : bool :=
  String.eqb (fst (fst r)) ns && bytes_Equal (snd (fst r)) k.

Definition mem_get (s : memStore) (ns : string) (k : bytes) : bytes * option error :=
  match find (row_is ns k) (rows s) with
  | Some r => (snd r, None)
  | None => ([], Some (errors_Wrap (errors_New db_ErrNotExist) "key not in store"))
  end.

Definition in_bounds (minKey maxKey k : bytes) : bool :=
  negb ((0 <? List.length minKey)%nat && (bytes_Compare k minKey =? -1))
  && negb ((0 <? List.length maxKey)%nat && (bytes_Compare k maxKey =? 1)).

Definition mem_filter (s : memStore) (ns : string) (cond : Condition)
    (minKey maxKey : bytes) : list bytes * list bytes * option error :=
  let hits :=
    filter (fun r => String.eqb (fst (fst r)) ns
                     && in_bounds minKey maxKey (snd (fst r))
                     && cond (snd (fst r)) (snd r)) (rows s) in
  (map (fun r => snd (fst r)) hits, map snd hits, None).

Definition mem_write (rs : list (string * bytes * bytes)) (wi : WriteInfo)
  : list (string * bytes * bytes) :=
  let others := filter (fun r => negb (row_is (namespace wi) (key wi) r)) rs in
  match writeType wi with
  | batch.Put => others ++ [(namespace wi, key wi, value wi)]
  | batch.Delete => others
  end.

Definition mem_writeBatch (s : memStore) (b : KVStoreBatch) : memStore * option error :=
  match writeError s with
  | Some e => (s, Some e)
  | None => (mkMemStore (fold_left mem_write b (rows s)) None, None)
  end.

#[export] Instance memStore_KVStore : KVStore memStore := {
  store_Get := mem_get;
  store_Filter := mem_filter;
  store_WriteBatch := mem_writeBatch
}.

(** ** A cache that keeps the height and the bucket ids seen *)
Record memCache : Type := mkMemCache {
  mc_height : Z;
  mc_buckets : list Z
}.

Definition heightNS : string := "staking".
Definition heightKey : bytes := [x68].

Definition BytesToUint64BigEndian (b : bytes) : Z :=
  fold_left (fun acc x => acc * 256 + Z.of_N (Byte.to_N x)) b 0.

Definition mem_merge (c : memCache) (delta : list Z) (height : Z)
  : memCache * option error :=
  if existsb (fun id => id <? 0) delta then
    (mkMemCache height (mc_buckets c), Some (errors_Errorf "invalid bucket id"))
  else (mkMemCache height (mc_buckets c ++ delta), None).

Definition mem_load (c : memCache) (s : memStore) : memCache * option error :=
  let '(v, err) := mem_get s heightNS heightKey in
  let ids :=
    map (fun r => BytesToUint64BigEndian (snd (fst r)))
      (filter (fun r => String.eqb (fst (fst r)) "bucket") (rows s)) in
  match err with
  | Some _ => (mkMemCache 0 ids, None)
  | None => (mkMemCache (BytesToUint64BigEndian v) ids, None)
  end.

#[export] Instance memCache_CacheOps
  : contractstaking.CacheOps memStore memCache (list Z) Z string := {
  contractstaking.newContractStakingCache := fun _ => mkMemCache 0 [];
  contractstaking.cache_Height := mc_height;
  contractstaking.cache_CandidateVotes := fun c _ _ => (Z.of_nat (List.length (mc_buckets c)), None);
  contractstaking.cache_Buckets := fun c _ => (mc_buckets c, None);
  contractstaking.cache_Bucket := fun c id _ =>
    (if existsb (Z.eqb id) (mc_buckets c) then Some id else None,
     existsb (Z.eqb id) (mc_buckets c), None);
  contractstaking.cache_BucketsByIndices := fun c ids _ =>
    (filter (fun id => existsb (Z.eqb id) ids) (mc_buckets c), None);
  contractstaking.cache_BucketsByCandidate := fun c _ _ => (mc_buckets c, None);
  contractstaking.cache_TotalBucketCount := fun c _ => (Z.of_nat (List.length (mc_buckets c)), None);
  contractstaking.cache_ActiveBucketTypes := fun _ _ => ([(1, "30 days")], None);
  contractstaking.cache_Merge := mem_merge;
  contractstaking.cache_LoadFromDB := mem_load
}.

(** A handler that reads a bucket id from the first byte of each log. *)
Definition log_id (log : block.Log) : Z :=
  match block.Data log with
  | [] => -1
  | x :: _ => Z.of_N (Byte.to_N x)
  end.

#[export] Instance memHandler_HandlerOps
  : contractstaking.HandlerOps memCache (list Z) (list Z) := {
  contractstaking.newContractStakingEventHandler := fun _ => [];
  contractstaking.HandleEvent := fun h _ log =>
    match block.Data log with
    | [] => (h, Some (errors_Errorf "empty event"))
    | _ => (h ++ [log_id log], None)
    end;
  contractstaking.Result := fun h =>
    (map (fun id => mkWriteInfo batch.Put "bucket" (Uint64ToBytesBigEndian id) [x01]
                      "failed to put bucket") h, h)
}.

(** ** A block archive in memory, in the manner of the file archive: a
    block at or below the tip already exists, a write can be made to
    fail *)
Record memDAO : Type := mkMemDAO {
  archive : list block.Block;
  ioError : option error
}.

Definition mem_Height (d : memDAO) : result Z :=
  Ok (Z.of_nat (List.length (archive d))).

Definition mem_HeaderByHeight (d : memDAO) (h : Z) : result block.Header :=
  match nth_error (archive d) (Z.to_nat (h - 1)) with
  | Some blk => if 0 <? h then Ok (block.header blk) else Err (errors_New db_ErrNotExist)
  | None => Err (errors_New db_ErrNotExist)
  end.

Definition mem_GetBlockHash (d : memDAO) (h : Z) : result block.Hash256 :=
  match mem_HeaderByHeight d h with
  | Ok hdr => Ok (block.HashBlock hdr)
  | Err e => Err e
  end.

Definition mem_PutBlock (d : memDAO) (ctx : Context) (blk : block.Block)
  : memDAO * option error :=
  let tip := Z.of_nat (List.length (archive d)) in
  let h := block.Height (block.header blk) in
  match ioError d with
  | Some e => (d, Some e)
  | None =>
      if h <=? tip then
        (d, Some (errors_Wrap (errors_New filedao_ErrAlreadyExist) "block already exist"))
      else if h =? tip + 1 then (mkMemDAO (archive d ++ [blk]) None, None)
      else (d, Some (errors_New blockchain_ErrInvalidTipHeight))
  end.

#[export] Instance memDAO_BlockDAO : blockchain.BlockDAO memDAO := {
  blockchain.dao_Height := mem_Height;
  blockchain.dao_GetBlockHash := mem_GetBlockHash;
  blockchain.dao_HeaderByHeight := mem_HeaderByHeight;
  blockchain.dao_PutBlock := mem_PutBlock
}.

(** ** Sample values *)
Definition k1 : bytes := [x6b; x31].
Definition k2 : bytes := [x6b; x32].
Definition v1 : bytes := [x76; x31].
Definition v2 : bytes := [x76; x32].

Definition sampleGenesis : genesis.Genesis :=
  genesis.mkGenesis (repeat x47 32) 1546329600 (fun _ => 20000000).

Definition sampleHeader (height : Z) (prev hash : block.Hash256) : block.Header :=
  block.mkHeader height (1546329600 + 5 * height) prev hash 0 None 0 0
    [x04; x01] (Some "io1producer") true.

Definition block1 : block.Block :=
  block.mkBlock (sampleHeader 1 (repeat x47 32) (repeat xb1 32)) [] [] None.

Definition block3 : block.Block :=
  block.mkBlock (sampleHeader 3 (repeat xb2 32) (repeat xb3 32)) [] [] None.

Definition sampleChain (d : memDAO) (listeners : list blockchain.Subscriber)
  : blockchain.blockchain memDAO :=
  blockchain.mk d (blockchain.mkConfig 1 4689) sampleGenesis None
    (Some (blockchain.mkPubSub listeners [])) false.

Definition sampleIndexer (st : memStore) (c : memCache) (start : Z)
  : contractstaking.Indexer memStore memCache :=
  contractstaking.mkIndexer st c (contractstaking.mkConfig "io1contract" start).

Definition stakeLog (id : byte) : block.Log := block.mkLog "io1contract" [id].

Definition stakingBlock (height : Z) (logs : list block.Log) : block.Block :=
  block.mkBlock (sampleHeader height (repeat x00 32) (repeat x01 32)) []
    [block.mkReceipt ReceiptStatus_Success logs] None.

(** ** Sample states *)

(** A store that holds k1, under an empty buffer. *)
Definition storeWithK1 : memStore := mkMemStore [("ns", k1, v1)] None.
Definition kvbOverK1 : kvStoreWithBuffer memStore := mkKvStoreWithBuffer storeWithK1 [].

(** The buffer of the merge scenario: Put(k2,v2), then Delete(k1). *)
Definition kvbScenario : kvStoreWithBuffer memStore :=
  MustDelete (MustPut kvbOverK1 "ns" k2 v2) "ns" k1.

Definition acceptAll : Condition := fun _ _ => true.

Definition emptyStore : memStore := mkMemStore [] None.

(** Start height 100, nothing indexed yet. *)
Definition indexerAt100 : contractstaking.Indexer memStore memCache :=
  sampleIndexer emptyStore (mkMemCache 0 []) 100.

(** Start height 100, cache at height 120 with two buckets. *)
Definition indexerAt120 : contractstaking.Indexer memStore memCache :=
  sampleIndexer emptyStore (mkMemCache 120 [7; 9]) 100.

Definition noFeeCheck (g : genesis.Genesis) (tip : TipInfo.t) (h : block.Header)
  : option error := None.

(** A chain at genesis with two subscribers, and the same chain over an
    archive whose writes fail. *)
Definition chainAtGenesis : blockchain.blockchain memDAO :=
  sampleChain (mkMemDAO [] None) ["indexer"; "api"].

Definition chainOnBrokenDisk : blockchain.blockchain memDAO :=
  sampleChain (mkMemDAO [] (Some (errors_Errorf "disk full"))) ["indexer"; "api"].

(** The chain after block 1 is committed. *)
Definition chainAtBlock1 : blockchain.blockchain memDAO :=
  fst (blockchain.CommitBlock chainAtGenesis block1).

End fixtures.

(* ===================================================================== *)
(** * The range query, said on key-value pairs

    [Filter] keeps two parallel lists.  The same merge on one list of pairs
    is the reference the code is compared with. *)
(* ===================================================================== *)

Module filter_spec.
Import batch db.

(** The entry is of the namespace, within the key bounds, and the
    predicate holds of its key and value. *)
Definition matches (ns : string) (cond : Condition) (minKey maxKey : bytes)
    (e : WriteInfo) : bool :=
  String.eqb (namespace e) ns
  && negb ((0 <? List.length minKey)%nat && (bytes_Compare (key e) minKey =? -1))
  && negb ((0 <? List.length maxKey)%nat && (bytes_Compare (key e) maxKey =? 1))
  && cond (key e) (value e).

(** The two columns of a list of pairs. *)
Definition keys (kvs : list (bytes * bytes)) : list bytes := map fst kvs.
Definition vals (kvs : list (bytes * bytes)) : list bytes := map snd kvs.

(** Without the first pair of key [k]. *)
Fixpoint without (k : bytes) (kvs : list (bytes * bytes)) : list (bytes * bytes) :=
  match kvs with
  | [] => []
  | kv :: kvs' => if bytes_Equal (fst kv) k then kvs' else kv :: without k kvs'
  end.

Definition merge_entry (ns : string) (cond : Condition) (minKey maxKey : bytes)
    (kvs : list (bytes * bytes)) (e : WriteInfo) : list (bytes * bytes) :=
  if matches ns cond minKey maxKey e then
    match writeType e with
    | batch.Put => without (key e) kvs ++ [(key e, value e)]
    | batch.Delete => without (key e) kvs
    end
  else kvs.

Definition merge (ns : string) (cond : Condition) (minKey maxKey : bytes)
    (kvs : list (bytes * bytes)) (entries : list WriteInfo) : list (bytes * bytes) :=
  fold_left (merge_entry ns cond minKey maxKey) entries kvs.

(** No entry of the list is a matching write of key [k]. *)
Definition no_match_of (ns : string) (cond : Condition) (minKey maxKey k : bytes)
    (entries : list WriteInfo) : Prop :=
  Forall (fun e => matches ns cond minKey maxKey e && bytes_Equal (key e) k = false)
    entries.

End filter_spec.

(* ===================================================================== *)
(** * Go strings and strconv, as far as the configuration calls them *)
(* ===================================================================== *)

Module strings.

(** [strings.Split(s, sep)] for a separator of one byte: the pieces between
    the separators, one more than there are separators. *)
Fixpoint Split (s : string) (sep : ascii) : list string :=
  match s with
  | EmptyString => [EmptyString]
  | String c s' =>
      if Ascii.eqb c sep then EmptyString :: Split s' sep
      else
        match Split s' sep with
        | piece :: pieces => String c piece :: pieces
        | [] => [String c EmptyString]
        end
  end.

Definition in_cutset (cutset : string) (c : ascii) : bool :=
  existsb (Ascii.eqb c) (list_ascii_of_string cutset).

Fixpoint TrimLeft (s cutset : string) : string :=
  match s with
  | EmptyString => EmptyString
  | String c s' => if in_cutset cutset c then TrimLeft s' cutset else s
  end.

Fixpoint TrimRight (s cutset : string) : string :=
  match s with
  | EmptyString => EmptyString
  | String c s' =>
      match TrimRight s' cutset with
      | EmptyString => if in_cutset cutset c then EmptyString else String c EmptyString
      | t => String c t
      end
  end.

(** [strings.Trim(s, cutset)] for a cutset of bytes: without the leading
    and the trailing bytes of the cutset. *)
Definition Trim (s cutset : string) : string := TrimRight (TrimLeft s cutset) cutset.

(** No byte of the string is in the cutset. *)
Definition free_of (cutset s : string) : Prop :=
  Forall (fun c => in_cutset cutset c = false) (list_ascii_of_string s).

End strings.

(** [strconv.Atoi] on a 64-bit platform: an optional sign, then decimal
    digits only and at least one, the value within [int64]; anything else
    is an error. *)
Definition strconv_Atoi (s : string) : result Z :=
  let syntax := Err (errors_Errorf ("strconv.Atoi: parsing " ++ s ++ ": invalid syntax")%string) in
  let '(neg, digits) :=
    match s with
    | String "-"%char s' => (true, s')
    | String "+"%char s' => (false, s')
    | _ => (false, s)
    end in
  match digits with
  | EmptyString => syntax
  | _ =>
      match NilEmpty.uint_of_string digits with
      | None => syntax
      | Some d =>
          let n := Z.of_N (N.of_uint d) in
          let v := if neg then - n else n in
          if (- 2 ^ 63 <=? v) && (v <=? 2 ^ 63 - 1) then Ok v
          else Err (errors_Errorf
                      ("strconv.Atoi: parsing " ++ s ++ ": value out of range")%string)
      end
  end.

(* ===================================================================== *)
(** * Package blockchain: the producer keys of the configuration *)
(* ===================================================================== *)

Module chain_config.

Definition SigP256k1 : string := "secp256k1".
Definition SigP256sm2 : string := "p256sm2".

(** The dynamic type of [sk.EcdsaPrivateKey()], as the type switch of
    [whitelistSignatureScheme] tells it apart. *)
Inductive KeyType : Type :=
| ecdsa_PrivateKey
| crypto_P256sm2PrvKey
| other_KeyType.

(** The key library (go-pkgs/crypto): decoding a key from hex, the type of
    a key, and the address of its public key (nil for none). *)
Class Crypto (K : Type) : Type := {
  HexStringToPrivateKey : string -> result K;
  EcdsaPrivateKey : K -> KeyType;
  PublicKey_Address : K -> option string
}.

(** [Config], the three fields the key functions read. *)
Record Config : Type := mkConfig {
  ProducerPrivKey : string;
  ProducerPrivKeyRange : string;
  SignatureScheme : list string
}.

Section WithCrypto.
Context {K : Type} `{Crypto K}.

Definition whitelistSignatureScheme (cfg : Config) (sk : K) : bool :=
  let sigScheme :=
    match EcdsaPrivateKey sk with
    | ecdsa_PrivateKey => SigP256k1
    | crypto_P256sm2PrvKey => SigP256sm2
    | other_KeyType => EmptyString
    end in
  if String.eqb sigScheme EmptyString then false
  else existsb (String.eqb sigScheme) (SignatureScheme cfg).

(** The loop over the pieces of [ProducerPrivKey]: a piece that does not
    decode, or decodes to a key that is not whitelisted, panics. *)
Fixpoint decode_keys (cfg : Config) (pks : list string) (privateKeys : list K)
  : outcome (list K) :=
  match pks with
  | [] => Returns privateKeys
  | pk :: pks' =>
      match HexStringToPrivateKey pk with
      | Err _ => Panics
      | Ok sk =>
          if negb (whitelistSignatureScheme cfg sk) then Panics
          else decode_keys cfg pks' (privateKeys ++ [sk])
      end
  end.

(** [privateKeys[start:end]], for bounds already checked. *)
Definition slice {A : Type} (l : list A) (start end_ : Z) : list A :=
  firstn (Z.to_nat (end_ - start)) (skipn (Z.to_nat start) l).

(** The text of a range, [[$start:$end]] with either side left out or a
    decimal number. *)
Definition range_side (side : option Z) : string :=
  match side with
  | Some z => fmt_d z
  | None => EmptyString
  end.

Definition range_text (start end_ : option Z) : string :=
  ("[" ++ range_side start ++ ":" ++ range_side end_ ++ "]")%string.

(** The piece decodes to the key, and the key is whitelisted. *)
Definition decodes_to (cfg : Config) (pk : string) (sk : K) : Prop :=
  HexStringToPrivateKey pk = Ok sk /\ whitelistSignatureScheme cfg sk = true.

(** [ProducerPrivateKeys] returns the configured private keys;
    [log.L().Panic] is the outcome [Panics]. *)
Definition ProducerPrivateKeys (cfg : Config) : outcome (list K) :=
  let pks := strings.Split (ProducerPrivKey cfg) ","%char in
  if (List.length pks =? 0)%nat then Panics
  else
  match decode_keys cfg pks [] with
  | Panics => Panics
  | Returns privateKeys =>
  if String.eqb (ProducerPrivKeyRange cfg) EmptyString then Returns privateKeys
  else
  (* Expecting format "[$start:$end]" *)
  let r := strings.Trim (ProducerPrivKeyRange cfg) "[]" in
  let parts := strings.Split r ":"%char in
  match parts with
  | [part0; part1] =>
      let len := Z.of_nat (List.length privateKeys) in
      match (if String.eqb part0 EmptyString then Ok 0 else strconv_Atoi part0) with
      | Err _ => Panics
      | Ok start =>
      match (if String.eqb part1 EmptyString then Ok len else strconv_Atoi part1) with
      | Err _ => Panics
      | Ok end_ =>
          if (start <? 0) || (end_ >? len) || (start >? end_) then Panics
          else Returns (slice privateKeys start end_)
      end end
  | _ => Panics
  end
  end.

(** The loop of [ProducerAddress]: a key without address panics. *)
Fixpoint addresses_of (privateKeys : list K) (addrs : list string)
  : outcome (list string) :=
  match privateKeys with
  | [] => Returns addrs
  | sk :: rest =>
      match PublicKey_Address sk with
      | None => Panics
      | Some addr => addresses_of rest (addrs ++ [addr])
      end
  end.

(** [ProducerAddress] returns the configured producer address derived from
    key. *)
Definition ProducerAddress (cfg : Config) : outcome (list string) :=
  match ProducerPrivateKeys cfg with
  | Panics => Panics
  | Returns privateKeys => addresses_of privateKeys []
  end.

End WithCrypto.

End chain_config.

(* ===================================================================== *)
(** * Package blockchain: queries over the archive *)
(* ===================================================================== *)

Module chain_queries.
Import blockchain.

(** A [map[string]uint64], as the list of its entries; a key that is not
    there reads as zero. *)
Definition counters : Type := list (string * Z).

Fixpoint counters_get (m : counters) (k : string) : Z :=
  match m with
  | [] => 0
  | (k', v) :: m' => if String.eqb k' k then v else counters_get m' k
  end.

(** [m[k]++]. *)
Fixpoint counters_incr (m : counters) (k : string) : counters :=
  match m with
  | [] => [(k, add64 0 1)]
  | (k', v) :: m' =>
      if String.eqb k' k then (k', add64 v 1) :: m'
      else (k', v) :: counters_incr m' k
  end.

Section WithArchive.
Context {D : Type} `{BlockDAO D}.

Definition BlockHeaderByHeight (bc : blockchain D) (height : Z) : result block.Header :=
  dao_HeaderByHeight (dao bc) height.

Definition getBlockTime (bc : blockchain D) (height : Z) : result Z :=
  if height =? 0 then Ok (genesis.Timestamp (genesis_ bc))
  else
    match dao_HeaderByHeight (dao bc) height with
    | Err e => Err e
    | Ok header => Ok (block.Timestamp header)
    end.

(** The loop of [Productivity], [for i := startHeight; i <= endHeight; i++]
    on [uint64].  [fuel] bounds the number of rounds run; [None] says the
    loop is still running when the fuel is spent.  [header.ProducerAddress()]
    calls [String()] on the address of the public key and panics on nil. *)
Fixpoint Productivity_loop (fuel : nat) (bc : blockchain D) (i endHeight : Z)
    (stats : counters) : option (outcome (result counters)) :=
  match fuel with
  | O => None
  | Datatypes.S fuel' =>
      if i <=? endHeight then
        match BlockHeaderByHeight bc i with
        | Err e => Some (Returns (Err e))
        | Ok header =>
            match block.ProducerAddress header with
            | None => Some Panics
            | Some producer =>
                Productivity_loop fuel' bc (add64 i 1) endHeight
                  (counters_incr stats producer)
            end
        end
      else Some (Returns (Ok stats))
  end.

(** [Productivity] returns the map of the number of blocks produced per
    delegate in given epoch. *)
Definition Productivity (fuel : nat) (bc : blockchain D) (startHeight endHeight : Z)
  : option (outcome (result counters)) :=
  Productivity_loop fuel bc startHeight endHeight [].

(** The producer of the block at a height, when the archive has its header
    and the header has a producer address. *)
Definition producer_at (bc : blockchain D) (height : Z) : option string :=
  match BlockHeaderByHeight bc height with
  | Ok header => block.ProducerAddress header
  | Err _ => None
  end.

(** The heights [start], [start+1], ..., [n] of them. *)
Definition heights (start : Z) (n : nat) : list Z :=
  map (fun k => start + Z.of_nat k) (seq 0 n).

(** The number of heights of the list whose block the producer made. *)
Definition produced_in (bc : blockchain D) (hs : list Z) (producer : string) : Z :=
  Z.of_nat
    (List.length
       (filter (fun h => match producer_at bc h with
                         | Some p => String.eqb p producer
                         | None => false
                         end) hs)).

End WithArchive.

End chain_queries.

(* ===================================================================== *)
(** * The indexer: the events of a block, start and stop *)
(* ===================================================================== *)

Module indexing.
Import batch db contractstaking.

(** The store's [Start] and [Stop]. *)
Class StoreLifecycle (S : Type) : Type := {
  store_Start : S -> S * option error;
  store_Stop : S -> S * option error
}.

Section WithCollaborators.
Context {S Cache Delta Handler TBucket TBucketType : Type}.
Context `{KVStore S} `{StoreLifecycle S}
        `{CacheOps S Cache Delta TBucket TBucketType}
        `{HandlerOps Cache Delta Handler}.

(** The logs [PutBlock] is interested in: those of the receipts with the
    success status that the watched contract emitted, in block order. *)
Definition relevant_logs (s : Indexer S Cache) (receipts : list block.Receipt)
  : list block.Log :=
  flat_map
    (fun receipt =>
       if block.Status receipt =? ReceiptStatus_Success then
         filter (fun log => String.eqb (block.Address log) (ContractAddress (config s)))
           (block.Logs receipt)
       else [])
    receipts.

(** One loop over a list of logs, ended by the first error. *)
Fixpoint handle_events (handler : Handler) (height : Z) (logs : list block.Log)
  : Handler * option error :=
  match logs with
  | [] => (handler, None)
  | log :: logs' =>
      let '(handler', err) := HandleEvent handler height log in
      match err with
      | Some e => (handler', Some e)
      | None => handle_events handler' height logs'
      end
  end.

(** The indexer with its embedded [lifecycle.Readiness], a flag that
    [TurnOn] sets, [TurnOff] clears and [IsReady] reads. *)
Record Service : Type := mkService {
  indexer : Indexer S Cache;
  ready : bool
}.

Definition start (s : Service) : Service * option error :=
  let '(st, err) := store_Start (kvstore (indexer s)) in
  let s := mkService (mkIndexer st (cache (indexer s)) (config (indexer s))) (ready s) in
  match err with
  | Some e => (s, Some e)
  | None =>
      let '(ix, err) := loadFromDB (indexer s) in
      let s := mkService ix (ready s) in
      match err with
      | Some e => (s, Some e)
      | None => (mkService (indexer s) true, None)
      end
  end.

(** [Start] starts the indexer. *)
Definition Start (s : Service) : Service * option error :=
  if ready s then (s, None) else start s.

(** [Stop] stops the indexer. *)
Definition Stop (s : Service) : Service * option error :=
  let '(st, err) := store_Stop (kvstore (indexer s)) in
  let s := mkService (mkIndexer st (cache (indexer s)) (config (indexer s))) (ready s) in
  match err with
  | Some e => (s, Some e)
  | None =>
      (mkService
         (mkIndexer (kvstore (indexer s))
            (newContractStakingCache (config (indexer s))) (config (indexer s)))
         false,
       None)
  end.

End WithCollaborators.

Arguments Service S Cache : clear implicits.

End indexing.

(* ===================================================================== *)
(** * The buffered store: the loop of the range query over a list *)
(* ===================================================================== *)

Module range_query.
Import batch db.

(** The rounds of [Filter]'s loop for a list of entries, first to last. *)
Fixpoint Filter_entries (ns : string) (cond : Condition) (minKey maxKey : bytes)
    (entries : list WriteInfo) (fk fv : list bytes)
  : outcome (list bytes * list bytes * option error) :=
  match entries with
  | [] => Returns (fk, fv, None)
  | entry :: entries' =>
      match Filter_entry ns cond minKey maxKey entry fk fv with
      | Returns (fk', fv') => Filter_entries ns cond minKey maxKey entries' fk' fv'
      | Panics => Panics
      end
  end.

End range_query.

(* ===================================================================== *)
(** * More in-memory collaborators *)
(* ===================================================================== *)

Module fixtures_more.
Import fixtures.

(** The in-memory store starts and stops unless its writes are broken. *)
#[export] Instance memStore_StoreLifecycle : indexing.StoreLifecycle memStore := {
  indexing.store_Start := fun s => (s, writeError s);
  indexing.store_Stop := fun s => (s, None)
}.

(** An archive that has a block at every height, made in turn by two
    producers. *)
Record endlessDAO : Type := mkEndlessDAO { tipOfEndless : Z }.

Definition endless_header (h : Z) : block.Header :=
  block.mkHeader h (1546329600 + 5 * h) (repeat x00 32) (repeat x01 32) 0 None 0 0
    [x04] (Some (if Z.even h then "io1even" else "io1odd")) true.

#[export] Instance endlessDAO_BlockDAO : blockchain.BlockDAO endlessDAO := {
  blockchain.dao_Height := fun d => Ok (tipOfEndless d);
  blockchain.dao_GetBlockHash := fun _ _ => Ok (repeat x01 32);
  blockchain.dao_HeaderByHeight := fun _ h => Ok (endless_header h);
  blockchain.dao_PutBlock := fun d _ _ => (d, Some (errors_Errorf "read only"))
}.

Definition endlessChain : blockchain.blockchain endlessDAO :=
  blockchain.mk (mkEndlessDAO 10) (blockchain.mkConfig 1 4689) sampleGenesis None None false.

(** Keys are their hex strings: a string that starts with "k" is a
    secp256k1 key, one that starts with "s" an sm2 key, one that starts
    with "x" a key of another type, anything else does not decode. *)
Definition toyKeyType (sk : string) : chain_config.KeyType :=
  match sk with
  | String "k"%char _ => chain_config.ecdsa_PrivateKey
  | String "s"%char _ => chain_config.crypto_P256sm2PrvKey
  | _ => chain_config.other_KeyType
  end.

#[export] Instance toyCrypto : chain_config.Crypto string := {
  chain_config.HexStringToPrivateKey := fun s =>
    match s with
    | String "k"%char _ | String "s"%char _ | String "x"%char _ => Ok s
    | _ => Err (errors_Errorf "invalid private key")
    end;
  chain_config.EcdsaPrivateKey := toyKeyType;
  chain_config.PublicKey_Address := fun sk => Some ("io1" ++ sk)%string
}.

Definition fourKeys (range : string) : chain_config.Config :=
  chain_config.mkConfig "k0,k1,s2,k3" range ["secp256k1"; "p256sm2"].

(** A stopped service over a store that holds height 119. *)
Definition stoppedService : indexing.Service memStore memCache :=
  indexing.mkService
    (sampleIndexer (mkMemStore [(heightNS, heightKey, Uint64ToBytesBigEndian 119)] None)
       (mkMemCache 0 []) 100)
    false.

(** An archive whose write is not all-or-nothing: [PutBlock] stores the
    block, then fails in a later step of the write and returns that
    step's error, [complaint]. *)
Record leakyDAO : Type := mkLeakyDAO {
  stored : list block.Block;
  complaint : error
}.

Definition leaky_PutBlock (d : leakyDAO) (ctx : Context) (blk : block.Block)
  : leakyDAO * option error :=
  (mkLeakyDAO (stored d ++ [blk]) (complaint d), Some (complaint d)).

#[export] Instance leakyDAO_BlockDAO : blockchain.BlockDAO leakyDAO := {
  blockchain.dao_Height := fun d => mem_Height (mkMemDAO (stored d) None);
  blockchain.dao_GetBlockHash := fun d => mem_GetBlockHash (mkMemDAO (stored d) None);
  blockchain.dao_HeaderByHeight := fun d => mem_HeaderByHeight (mkMemDAO (stored d) None);
  blockchain.dao_PutBlock := leaky_PutBlock
}.

Definition leakyChain (d : leakyDAO) : blockchain.blockchain leakyDAO :=
  blockchain.mk d (blockchain.mkConfig 1 4689) sampleGenesis None
    (Some (blockchain.mkPubSub ["indexer"; "api"] [])) false.

(** A chain at genesis over an archive that stores the block and then
    reports a failed index. *)
Definition chainOverLeakyArchive : blockchain.blockchain leakyDAO :=
  leakyChain (mkLeakyDAO [] (errors_Errorf "failed to index block")).


(** A store whose writes and whose range reads can each be made to fail. *)
Record flakyStore : Type := mkFlakyStore {
  disk : memStore;
  readError : option error
}.

Definition flaky_filter (s : flakyStore) (ns : string) (cond : db.Condition)
    (minKey maxKey : bytes) : list bytes * list bytes * option error :=
  match readError s with
  | Some e => ([], [], Some e)
  | None => mem_filter (disk s) ns cond minKey maxKey
  end.

Definition flaky_writeBatch (s : flakyStore) (b : batch.KVStoreBatch)
  : flakyStore * option error :=
  let '(d, err) := mem_writeBatch (disk s) b in
  (mkFlakyStore d (readError s), err).

#[export] Instance flakyStore_KVStore : db.KVStore flakyStore := {
  db.store_Get := fun s => mem_get (disk s);
  db.store_Filter := flaky_filter;
  db.store_WriteBatch := flaky_writeBatch
}.

(** The cache loaded in two steps: the height with a point read, then the
    buckets with a range read.  A failed range read returns its error and
    leaves the cache with the height read and the buckets it had. *)
Definition flaky_load (c : memCache) (s : flakyStore) : memCache * option error :=
  let '(v, err) := mem_get (disk s) heightNS heightKey in
  let c :=
    mkMemCache (match err with
                | Some _ => 0
                | None => BytesToUint64BigEndian v
                end) (mc_buckets c) in
  let '(ks, _, err) := flaky_filter s "bucket" (fun _ _ => true) [] [] in
  match err with
  | Some e => (c, Some e)
  | None => (mkMemCache (mc_height c) (map BytesToUint64BigEndian ks), None)
  end.

#[export] Instance flakyCache_CacheOps
  : contractstaking.CacheOps flakyStore memCache (list Z) Z string := {
  contractstaking.newContractStakingCache := fun _ => mkMemCache 0 [];
  contractstaking.cache_Height := mc_height;
  contractstaking.cache_CandidateVotes := fun c _ _ => (Z.of_nat (List.length (mc_buckets c)), None);
  contractstaking.cache_Buckets := fun c _ => (mc_buckets c, None);
  contractstaking.cache_Bucket := fun c id _ =>
    (if existsb (Z.eqb id) (mc_buckets c) then Some id else None,
     existsb (Z.eqb id) (mc_buckets c), None);
  contractstaking.cache_BucketsByIndices := fun c ids _ =>
    (filter (fun id => existsb (Z.eqb id) ids) (mc_buckets c), None);
  contractstaking.cache_BucketsByCandidate := fun c _ _ => (mc_buckets c, None);
  contractstaking.cache_TotalBucketCount := fun c _ => (Z.of_nat (List.length (mc_buckets c)), None);
  contractstaking.cache_ActiveBucketTypes := fun _ _ => ([(1, "30 days")], None);
  contractstaking.cache_Merge := mem_merge;
  contractstaking.cache_LoadFromDB := flaky_load
}.

(** The checkpoint on disk: height 119 and bucket 7. *)
Definition checkpoint119 : list (string * bytes * bytes) :=
  [(heightNS, heightKey, Uint64ToBytesBigEndian 119);
   ("bucket", Uint64ToBytesBigEndian 7, [x01])].

(** An indexer in step with that checkpoint, over a disk that has begun
    to fail: the next write and the next range read return an error. *)
Definition indexerOnFailingDisk : contractstaking.Indexer flakyStore memCache :=
  contractstaking.mkIndexer
    (mkFlakyStore (mkMemStore checkpoint119 (Some (errors_Errorf "disk full")))
       (Some (errors_Errorf "read failed")))
    (mkMemCache 119 [7])
    (contractstaking.mkConfig "io1contract" 100).


End fixtures_more.

(* ===================================================================== *)
(** * Facts about Go basics *)
(* ===================================================================== *)

Lemma bytes_Equal_refl (a : bytes) : bytes_Equal a a = true.
Proof.
  induction a as [|x a IH]; simpl; [reflexivity|].
  rewrite IH, (Byte.byte_dec_lb (eq_refl x)). reflexivity.
Qed.

Lemma bytes_Equal_eq (a b : bytes) : bytes_Equal a b = true <-> a = b.
Proof.
  split; [|intros ->; apply bytes_Equal_refl].
  revert b; induction a as [|x a IH]; intros [|y b]; simpl; try discriminate; auto.
  intros Hxy. apply andb_prop in Hxy as [Hx Ha].
  apply Byte.byte_dec_bl in Hx. apply IH in Ha. congruence.
Qed.

Lemma bytes_Equal_neq (a b : bytes) : bytes_Equal a b = false <-> a <> b.
Proof.
  rewrite <- bytes_Equal_eq. destruct (bytes_Equal a b); split; congruence.
Qed.

Lemma bytes_Equal_sym (a b : bytes) : bytes_Equal a b = bytes_Equal b a.
Proof.
  destruct (bytes_Equal a b) eqn:E.
  - apply bytes_Equal_eq in E. subst. symmetry. apply bytes_Equal_refl.
  - destruct (bytes_Equal b a) eqn:E'; [|reflexivity].
    apply bytes_Equal_eq in E'. subst. rewrite bytes_Equal_refl in E. discriminate.
Qed.




Lemma add64_succ (h : Z) : is_uint64 h -> h < MaxUint64 -> add64 h 1 = h + 1.
Proof.
  unfold is_uint64, add64, MaxUint64. intros [Hlo _] Hlt.
  apply Z.mod_small. lia.
Qed.

Lemma add64_max : add64 MaxUint64 1 = 0.
Proof. reflexivity. Qed.

Lemma add64_cases (h : Z) : is_uint64 h -> add64 h 1 = h + 1 \/ add64 h 1 = 0.
Proof.
  intros Hh. destruct (Z.eq_dec h MaxUint64) as [->|Hne].
  - right. apply add64_max.
  - left. apply add64_succ; [assumption|]. unfold is_uint64 in Hh. lia.
Qed.

(* ===================================================================== *)
(** * The buffered store: reads, writes and flush *)
(* ===================================================================== *)

Section BufferedStore.
Import batch db.
Context {S : Type} `{KVStore S}.

Lemma same_key_here (t : WriteType) (ns : string) (k v : bytes) (msg : string) :
  same_key ns k (mkWriteInfo t ns k v msg) = true.
Proof.
  unfold same_key; simpl. now rewrite String.eqb_refl, bytes_Equal_refl.
Qed.

Lemma lookup_newest_skip (later older : list WriteInfo) (ns : string) (k : bytes) :
  no_entry_of ns k later ->
  lookup_newest (rev later ++ older) ns k = lookup_newest older ns k.
Proof.
  intros Hno. apply Forall_rev in Hno.
  induction Hno as [|e l He _ IH]; simpl; [reflexivity|].
  now rewrite He.
Qed.

Lemma CachedBatch_Get_latest (cb later : CachedBatch) (e : WriteInfo)
    (ns : string) (k : bytes) :
  same_key ns k e = true ->
  no_entry_of ns k later ->
  CachedBatch_Get (cb ++ e :: later) ns k =
  match writeType e with
  | batch.Put => (value e, None)
  | batch.Delete => ([], Some (errors_New batch_ErrAlreadyDeleted))
  end.
Proof.
  intros He Hno. unfold CachedBatch_Get.
  rewrite rev_app_distr. simpl. rewrite <- app_assoc.
  rewrite lookup_newest_skip by assumption. simpl. now rewrite He.
Qed.

Lemma CachedBatch_Get_absent (cb : CachedBatch) (ns : string) (k : bytes) :
  no_entry_of ns k cb ->
  CachedBatch_Get cb ns k = ([], Some (errors_New batch_ErrNotExist)).
Proof.
  intros Hno. unfold CachedBatch_Get.
  rewrite <- (app_nil_r (rev cb)). now rewrite lookup_newest_skip.
Qed.

(** C5.  [Get] on the buffered store reads the buffer over the store.
    For every store, namespace and key: (a) after [Put(ns,k,v)], and
    whatever is written to other keys afterwards, [Get(ns,k)] returns [v]
    with a nil error while the store is still as it was (nothing is
    flushed); (b) after [Delete(ns,k)], [Get(ns,k)] returns an error whose
    cause is the store's [ErrNotExist], whatever the store holds for the
    key; (c) when the buffer has no entry of the key, [Get] returns the
    value the store returns, with the store's error. *)
Theorem Get_reads_buffer_over_store (kvb : kvStoreWithBuffer S) (ns : string) (k : bytes) :
  (forall (v : bytes) (later : KVStoreBatch),
      no_entry_of ns k later ->
      let kvb' := fst (WriteBatch (fst (Put kvb ns k v)) later) in
      Get kvb' ns k = (v, None) /\ store kvb' = store kvb)
  /\ (forall later : KVStoreBatch,
      no_entry_of ns k later ->
      let kvb' := fst (WriteBatch (fst (Delete kvb ns k)) later) in
      cause_is (snd (Get kvb' ns k)) db_ErrNotExist = true
      /\ fst (Get kvb' ns k) = []
      /\ store kvb' = store kvb)
  /\ (no_entry_of ns k (buffer kvb) ->
      Get kvb ns k = from_store (store_Get (store kvb) ns k) ns k
      /\ (cause_is (snd (store_Get (store kvb) ns k)) batch_ErrAlreadyDeleted = false ->
          Get kvb ns k = store_Get (store kvb) ns k)).
Proof.
  split; [|split].
  - intros v later Hno. simpl. split; [|reflexivity].
    unfold Get; simpl. unfold CachedBatch_Append, CachedBatch_Put.
    rewrite <- app_assoc. simpl.
    rewrite (CachedBatch_Get_latest _ _ _ ns k); [reflexivity| |assumption].
    apply same_key_here.
  - intros later Hno. simpl.
    unfold Get; simpl. unfold CachedBatch_Append, CachedBatch_Delete.
    rewrite <- app_assoc. simpl.
    rewrite (CachedBatch_Get_latest _ _ _ ns k); [|apply same_key_here|assumption].
    simpl. repeat split; reflexivity.
  - intros Hno. unfold Get, from_store.
    rewrite CachedBatch_Get_absent by assumption. simpl.
    destruct (store_Get (store kvb) ns k) as [value err]; simpl.
    split; [reflexivity|]. now intros ->.
Qed.

(** C10.  The fallible [Put] and [Delete] of the buffered store always
    return nil.  Each leaves the store as it is and appends one entry to
    the buffer, and the state after it is the state after [MustPut] and
    [MustDelete]. *)
Theorem Put_Delete_never_fail (kvb : kvStoreWithBuffer S) (ns : string) (k v : bytes) :
  Put kvb ns k v = (MustPut kvb ns k v, None)
  /\ Delete kvb ns k = (MustDelete kvb ns k, None)
  /\ store (MustPut kvb ns k v) = store kvb
  /\ store (MustDelete kvb ns k) = store kvb
  /\ (exists msg, buffer (MustPut kvb ns k v)
                  = buffer kvb ++ [mkWriteInfo batch.Put ns k v msg])
  /\ (exists msg, buffer (MustDelete kvb ns k)
                  = buffer kvb ++ [mkWriteInfo batch.Delete ns k [] msg]).
Proof.
  repeat split; try reflexivity; eexists; reflexivity.
Qed.

(** C7.  [Flush] hands the translated buffer to the store's [WriteBatch]
    first.  When that write returns an error, [Flush] returns the same
    error and the buffer holds what it held; when it returns nil, [Flush]
    returns nil and the buffer is empty.  In both cases the store is the
    one the write left. *)
Theorem Flush_clears_after_write (f : flusher S) :
  let w := store_WriteBatch (store (kvb f))
             (CachedBatch_Translate (buffer (kvb f)) (flushTranslate f)) in
  let f' := fst (Flush f) in
  store (kvb f') = fst w
  /\ flushTranslate f' = flushTranslate f
  /\ snd (Flush f) = snd w
  /\ match snd w with
     | Some _ => buffer (kvb f') = buffer (kvb f)
     | None => buffer (kvb f') = [] /\ Size (kvb f') = O
     end.
Proof.
  unfold Flush. simpl.
  destruct (store_WriteBatch _ _) as [st [e|]]; simpl; auto.
Qed.

End BufferedStore.

(* ===================================================================== *)
(** * The buffered store: the range query *)
(* ===================================================================== *)

Section RangeQuery.
Import batch db filter_spec.
Context {S : Type} `{KVStore S}.

Lemma keys_vals_combine (fk fv : list bytes) :
  List.length fk = List.length fv ->
  keys (combine fk fv) = fk /\ vals (combine fk fv) = fv.
Proof.
  revert fv; induction fk as [|k fk IH]; intros [|v fv] Hlen;
    simpl in *; try discriminate; auto.
  injection Hlen as Hlen. destruct (IH fv Hlen) as [-> ->]. auto.
Qed.

Lemma combine_keys_vals (kvs : list (bytes * bytes)) :
  combine (keys kvs) (vals kvs) = kvs.
Proof.
  induction kvs as [|[k v] kvs IH]; simpl; [reflexivity|]. now rewrite IH.
Qed.

Lemma keys_vals_length (kvs : list (bytes * bytes)) :
  List.length (keys kvs) = List.length (vals kvs).
Proof. unfold keys, vals. now rewrite !length_map. Qed.

(** ** The two parallel lists against the list of pairs *)

Lemma drop_same_key_cons (k k' v' : bytes) (fk fv : list bytes) :
  bytes_Equal k' k = false ->
  drop_same_key k (k' :: fk) (v' :: fv) =
  match drop_same_key k fk fv with
  | Returns (a, b) => Returns (k' :: a, v' :: b)
  | Panics => Panics
  end.
Proof.
  intros Hne. unfold drop_same_key. simpl. rewrite Hne.
  destruct (first_index k fk) as [i|]; simpl; [|reflexivity].
  unfold cut. simpl List.length.
  change (Datatypes.S i <? Datatypes.S (List.length fk))%nat with (i <? List.length fk)%nat.
  change (Datatypes.S i <? Datatypes.S (List.length fv))%nat with (i <? List.length fv)%nat.
  destruct (i <? List.length fk)%nat, (i <? List.length fv)%nat; reflexivity.
Qed.

Lemma drop_same_key_pairs (k : bytes) (kvs : list (bytes * bytes)) :
  drop_same_key k (keys kvs) (vals kvs)
  = Returns (keys (without k kvs), vals (without k kvs)).
Proof.
  induction kvs as [|[k' v'] kvs IH]; [reflexivity|].
  change (keys ((k', v') :: kvs)) with (k' :: keys kvs).
  change (vals ((k', v') :: kvs)) with (v' :: vals kvs).
  cbn [without fst]. destruct (bytes_Equal k' k) eqn:E.
  - unfold drop_same_key. cbn [first_index]. rewrite E. reflexivity.
  - rewrite drop_same_key_cons by assumption. rewrite IH. reflexivity.
Qed.

Lemma Filter_entry_pairs (ns : string) (cond : Condition) (minKey maxKey : bytes)
    (e : WriteInfo) (kvs : list (bytes * bytes)) :
  Filter_entry ns cond minKey maxKey e (keys kvs) (vals kvs)
  = Returns (keys (merge_entry ns cond minKey maxKey kvs e),
             vals (merge_entry ns cond minKey maxKey kvs e)).
Proof.
  unfold Filter_entry, merge_entry, matches.
  destruct (String.eqb (namespace e) ns); simpl; [|reflexivity].
  destruct ((0 <? List.length minKey)%nat && (bytes_Compare (key e) minKey =? -1));
    simpl; [reflexivity|].
  destruct ((0 <? List.length maxKey)%nat && (bytes_Compare (key e) maxKey =? 1));
    simpl; [reflexivity|].
  destruct (cond (key e) (value e)); [|reflexivity].
  rewrite drop_same_key_pairs.
  destruct (writeType e); [|reflexivity].
  unfold keys, vals. now rewrite !map_app.
Qed.

Lemma skipn_cons_inv {A : Type} (l : list A) (i : nat) (x : A) (rest : list A) :
  skipn i l = x :: rest ->
  nth_error l i = Some x /\ skipn (Datatypes.S i) l = rest.
Proof.
  revert l; induction i as [|i IH]; intros [|y l] Hs; simpl in *; try discriminate.
  - injection Hs as -> ->. auto.
  - apply IH in Hs. exact Hs.
Qed.

Lemma Filter_loop_pairs (kvb : kvStoreWithBuffer S) (ns : string) (cond : Condition)
    (minKey maxKey : bytes) (rest : list WriteInfo) :
  forall (i : nat) (kvs : list (bytes * bytes)),
    skipn i (buffer kvb) = rest ->
    Filter_loop kvb ns cond minKey maxKey (List.length rest) i (keys kvs) (vals kvs)
    = Returns (keys (merge ns cond minKey maxKey kvs rest),
               vals (merge ns cond minKey maxKey kvs rest), None).
Proof.
  induction rest as [|e rest IH]; intros i kvs Hskip; [reflexivity|].
  apply skipn_cons_inv in Hskip as [Hnth Hskip].
  simpl. unfold CachedBatch_Entry. rewrite Hnth.
  rewrite Filter_entry_pairs. now apply IH.
Qed.

(** ** The merge keeps the keys distinct *)

Lemma In_without (k : bytes) (kv : bytes * bytes) (kvs : list (bytes * bytes)) :
  In kv (without k kvs) -> In kv kvs.
Proof.
  induction kvs as [|kv' kvs IH]; simpl; [auto|].
  destruct (bytes_Equal (fst kv') k); simpl; intuition.
Qed.


Lemma without_other (k : bytes) (kv : bytes * bytes) (kvs : list (bytes * bytes)) :
  fst kv <> k -> In kv kvs -> In kv (without k kvs).
Proof.
  intros Hne. induction kvs as [|kv' kvs IH]; simpl; [auto|].
  intros [->|Hin].
  - apply bytes_Equal_neq in Hne. rewrite Hne. now left.
  - destruct (bytes_Equal (fst kv') k); [assumption|]. right. auto.
Qed.






(** ** A matching write stays in force until a later matching write of its key *)

Lemma merge_entry_keeps_pair (ns : string) (cond : Condition) (minKey maxKey : bytes)
    (k v : bytes) (kvs : list (bytes * bytes)) (e : WriteInfo) :
  matches ns cond minKey maxKey e && bytes_Equal (key e) k = false ->
  In (k, v) kvs -> In (k, v) (merge_entry ns cond minKey maxKey kvs e).
Proof.
  intros Hother Hin. unfold merge_entry.
  destruct (matches ns cond minKey maxKey e); [|assumption].
  simpl in Hother. apply bytes_Equal_neq in Hother.
  assert (In (k, v) (without (key e) kvs)) as Hw
    by (apply without_other; [simpl; congruence|assumption]).
  destruct (writeType e); [|assumption].
  apply in_or_app. now left.
Qed.


Lemma merge_keeps_pair (ns : string) (cond : Condition) (minKey maxKey : bytes)
    (k v : bytes) (post : list WriteInfo) :
  no_match_of ns cond minKey maxKey k post ->
  forall kvs, In (k, v) kvs -> In (k, v) (merge ns cond minKey maxKey kvs post).
Proof.
  induction 1 as [|e post He _ IH]; intros kvs Hin; simpl; [assumption|].
  apply IH. now apply merge_entry_keeps_pair.
Qed.




End RangeQuery.

(* ===================================================================== *)
(** * The indexer *)
(* ===================================================================== *)

Section IndexerFacts.
Import batch db contractstaking.
Context {S Cache Delta Handler TBucket TBucketType : Type}.
Context `{KVStore S}
        `{CacheOps S Cache Delta TBucket TBucketType}
        `{HandlerOps Cache Delta Handler}.
Variable _StakingNS : string.
Variable _stakingHeightKey : bytes.


Lemma reloadCache_cache (s : Indexer S Cache) :
  fst (reloadCache s) = mkIndexer (kvstore s) (reloaded (config s) (kvstore s)) (config s).
Proof.
  unfold reloadCache, loadFromDB, reloaded. simpl.
  destruct (cache_LoadFromDB _ _) as [c err]. reflexivity.
Qed.

(** The three ways [commit] ends.  The merge fails: the error of the merge
    is returned, the store is untouched, and the cache is what
    [LoadFromDB] leaves on a new cache, read from the store.  The merge
    succeeds and the write of the batch fails: the error of the write is
    returned and the cache is what [LoadFromDB] leaves on a new cache, read
    from the store the write left.  Both succeed: nil is returned, the
    cache is the merged cache and the store has taken the batch with the
    height.  The error of the reload itself appears nowhere in the
    result. *)
Lemma commit_paths (s : Indexer S Cache) (handler : Handler)
    (height : Z) :
  let delta := snd (Result handler) in
  let merged := cache_Merge (cache s) delta height in
  let written := store_WriteBatch (kvstore s) (committed_batch _StakingNS _stakingHeightKey handler height) in
  let s' := fst (commit _StakingNS _stakingHeightKey s handler height) in
  let ret := snd (commit _StakingNS _stakingHeightKey s handler height) in
  config s' = config s
  /\ match snd merged with
     | Some e =>
         ret = Some e
         /\ kvstore s' = kvstore s
         /\ cache s' = reloaded (config s) (kvstore s)
     | None =>
         match snd written with
         | Some e =>
             ret = Some e
             /\ kvstore s' = fst written
             /\ cache s' = reloaded (config s) (fst written)
         | None =>
             ret = None
             /\ kvstore s' = fst written
             /\ cache s' = fst merged
         end
     end.
Proof.
  unfold commit, committed_batch, batch_Put. simpl.
  destruct (Result handler) as [b delta]. simpl.
  destruct (cache_Merge (cache s) delta height) as [c [e|]]; simpl.
  - rewrite reloadCache_cache. simpl. auto.
  - destruct (store_WriteBatch (kvstore s) _) as [st [e|]]; simpl.
    + rewrite reloadCache_cache. simpl. auto.
    + auto.
Qed.

Lemma expectHeight_max (s : Indexer S Cache) :
  expectHeight s
  = Z.max (add64 (cache_Height (cache s)) 1) (ContractDeployHeight (config s)).
Proof.
  unfold expectHeight.
  destruct (Z.ltb_spec (add64 (cache_Height (cache s)) 1)
              (ContractDeployHeight (config s))); lia.
Qed.

(** C4.  [PutBlock] compares the block's height with the expected height,
    the larger of the cache height plus one (a [uint64] sum) and the
    configured start height.  A block below it: nil is returned and the
    indexer (cache, store, configuration) is as before.  A block above it:
    an error is returned and the indexer is as before.  A block at it, and
    only such a block, is processed: its events are handled and the result
    is committed. *)
Theorem PutBlock_expected_height_only (s : Indexer S Cache) (blk : block.Block) :
  let height := block.Height (block.header blk) in
  expectHeight s
  = Z.max (add64 (cache_Height (cache s)) 1) (ContractDeployHeight (config s))
  /\ (is_uint64 (cache_Height (cache s)) -> cache_Height (cache s) < MaxUint64 ->
      expectHeight s = Z.max (cache_Height (cache s) + 1) (ContractDeployHeight (config s)))
  /\ (height < expectHeight s -> PutBlock _StakingNS _stakingHeightKey s blk = (s, None))
  /\ (height > expectHeight s ->
      exists msg, PutBlock _StakingNS _stakingHeightKey s blk = (s, Some (errors_Errorf msg)))
  /\ (height = expectHeight s -> PutBlock _StakingNS _stakingHeightKey s blk = process _StakingNS _stakingHeightKey s blk)
  /\ (height <> expectHeight s -> fst (PutBlock _StakingNS _stakingHeightKey s blk) = s).
Proof.
  intros height. subst height.
  set (h := block.Height (block.header blk)).
  split; [apply expectHeight_max|].
  split; [intros Hu Hlt; rewrite expectHeight_max, add64_succ by assumption; reflexivity|].
  unfold PutBlock. fold h.
  destruct (Z.ltb_spec h (expectHeight s)) as [Hlt|Hge];
    [|destruct (Z.gtb_spec h (expectHeight s)) as [Hgt|Hle]];
    repeat split; intros;
    first [reflexivity | eexists; reflexivity | exfalso; lia].
Qed.

(** C9.  For a height below the configured start height (the contract
    deploy height) every read accessor returns its empty value with a nil
    error, whatever the cache holds: no votes, no buckets, no bucket, a
    count of zero, no bucket types. *)
Theorem accessors_empty_before_start (s : Indexer S Cache) (height : Z) :
  height < ContractDeployHeight (config s) ->
  (forall candidate, CandidateVotes s candidate height = (0, None))
  /\ Buckets s height = ([], None)
  /\ (forall id, Bucket s id height = (None, false, None))
  /\ (forall indices, BucketsByIndices s indices height = ([], None))
  /\ (forall candidate, BucketsByCandidate s candidate height = ([], None))
  /\ TotalBucketCount s height = (0, None)
  /\ BucketTypes s height = ([], None).
Proof.
  intros Hlt.
  assert (isIgnored s height = true) as Hig by (unfold isIgnored; lia).
  unfold CandidateVotes, Buckets, Bucket, BucketsByIndices, BucketsByCandidate,
    TotalBucketCount, BucketTypes.
  rewrite Hig. repeat split; reflexivity.
Qed.

End IndexerFacts.

(* ===================================================================== *)
(** * The chain *)
(* ===================================================================== *)

Lemma cause_is_spec (err : option error) (s : sentinel) :
  cause_is err s = true <-> errors_Cause err = Some (errors_New s).
Proof.
  unfold cause_is. destruct (errors_Cause err) as [[s'| |]|]; split;
    try discriminate; try (intros Heq; injection Heq as ->).
  - destruct s', s; simpl; try discriminate; reflexivity.
  - destruct s; reflexivity.
Qed.

Section ChainFacts.
Import blockchain.
Context {D : Type} `{BlockDAO D}.
Variable VerifyEIP1559Header :
  genesis.Genesis -> TipInfo.t -> block.Header -> option error.

Lemma tipInfo_Height (bc : blockchain D) (h : Z) (tip : TipInfo.t) :
  tipInfo bc h = Ok tip -> TipInfo.Height tip = h.
Proof.
  unfold tipInfo. destruct (Z.eqb_spec h 0) as [->|Hne].
  - intros Heq. injection Heq as <-. reflexivity.
  - destruct (dao_HeaderByHeight (dao bc) h); [|discriminate].
    intros Heq. injection Heq as <-. reflexivity.
Qed.

Lemma tip_of_with_dao (bc : blockchain D) (d : D) :
  dao_Height d = dao_Height (dao bc) ->
  (forall h, dao_GetBlockHash d h = dao_GetBlockHash (dao bc) h) ->
  TipHeight (with_dao bc d) = TipHeight bc /\ TipHash (with_dao bc d) = TipHash bc.
Proof.
  intros Hh Hg. unfold TipHeight, TipHash. simpl. rewrite Hh.
  split; [reflexivity|].
  destruct (dao_Height (dao bc)); [|reflexivity]. now rewrite Hg.
Qed.

Lemma commitBlock_after_PutBlock (bc : blockchain D) (blk : block.Block)
    (tipHeight : Z) (ctx : Context) (d : D) (err : option error) :
  dao_Height (dao bc) = Ok tipHeight ->
  context bc context_Background tipHeight = Ok ctx ->
  dao_PutBlock (dao bc) (commit_context bc ctx blk) blk = (d, err) ->
  commitBlock bc blk = after_PutBlock bc blk d err.
Proof.
  intros Hh Hctx Hput. unfold commitBlock, after_PutBlock.
  rewrite Hh, Hctx. unfold commit_context in Hput. rewrite Hput. reflexivity.
Qed.

Lemma after_PutBlock_archive (bc : blockchain D) (blk : block.Block) (d : D)
    (err : option error) :
  dao (fst (after_PutBlock bc blk d err)) = d
  /\ subscribers (fst (after_PutBlock bc blk d err)) = subscribers bc.
Proof.
  unfold after_PutBlock, emitToSubscribers, subscribers, with_pubSubManager, with_dao.
  destruct (errors_Cause err) as [[s| |]|]; try destruct s; simpl;
    try (split; reflexivity).
  destruct (pubSubManager bc); split; reflexivity.
Qed.

Lemma after_PutBlock_nil (bc : blockchain D) (blk : block.Block) (d : D) :
  after_PutBlock bc blk d None = (emitToSubscribers (with_dao bc d) blk, None).
Proof. reflexivity. Qed.


Lemma after_PutBlock_failure (bc : blockchain D) (blk : block.Block) (d : D)
    (e : error) :
  cause_is (Some e) filedao_ErrAlreadyExist = false ->
  cause_is (Some e) blockdao_ErrAlreadyExist = false ->
  after_PutBlock bc blk d (Some e) = (with_dao bc d, Some e).
Proof.
  unfold after_PutBlock, cause_is.
  destruct (errors_Cause (Some e)) as [[s| |]|] eqn:Ec; try destruct s; simpl;
    try reflexivity; try discriminate.
Qed.

Lemma notifications_after_emit (bc : blockchain D) (blk : block.Block) (d : D) :
  notifications (emitToSubscribers (with_dao bc d) blk)
  = notifications bc ++ map (fun s => (s, blk)) (subscribers bc).
Proof.
  unfold emitToSubscribers, notifications, subscribers, with_pubSubManager, with_dao.
  simpl. destruct (pubSubManager bc); reflexivity.
Qed.

(** Whatever the path through [CommitBlock], a non-nil result comes with no
    delivery: the paused chain, an archive that cannot report the tip, and
    a failed write all leave the subscribers' deliveries as they were. *)
Lemma CommitBlock_error_delivers_nothing (bc : blockchain D) (blk : block.Block)
    (e : error) :
  snd (CommitBlock bc blk) = Some e ->
  notifications (fst (CommitBlock bc blk)) = notifications bc.
Proof.
  unfold CommitBlock, commitBlock.
  destruct (pause bc); [reflexivity|].
  destruct (dao_Height (dao bc)) as [tipHeight|]; [|reflexivity].
  destruct (context bc context_Background tipHeight) as [ctx|]; [|reflexivity].
  destruct (dao_PutBlock (dao bc) _ blk) as [d err].
  destruct (errors_Cause err) as [[s| |]|]; try destruct s; simpl;
    try reflexivity; discriminate.
Qed.

(** C8.  Let the archive report the tip height and the tip.  For every
    block whose height is neither the tip's height plus one nor zero,
    [ValidateBlock] returns an error whose cause is [ErrInvalidTipHeight]
    and the chain, its tip height and tip hash with it, is as before the
    call. *)
Theorem ValidateBlock_rejects_wrong_height (bc : blockchain D) (blk : block.Block)
    (opts : list BlockValidationOption) (tipHeight : Z) (tip : TipInfo.t) :
  dao_Height (dao bc) = Ok tipHeight ->
  is_uint64 tipHeight ->
  tipInfo bc tipHeight = Ok tip ->
  block.Height (block.header blk) <> TipInfo.Height tip + 1 ->
  block.Height (block.header blk) <> 0 ->
  let bc' := fst (ValidateBlock VerifyEIP1559Header bc (Some blk) opts) in
  let ret := snd (ValidateBlock VerifyEIP1559Header bc (Some blk) opts) in
  cause_is ret blockchain_ErrInvalidTipHeight = true
  /\ (exists msg, ret = Some (errors_Wrap (errors_New blockchain_ErrInvalidTipHeight) msg))
  /\ bc' = bc
  /\ TipHeight bc' = TipHeight bc
  /\ TipHash bc' = TipHash bc.
Proof.
  intros Hh Hu Htip Hne1 Hne0. simpl.
  pose proof (tipInfo_Height _ _ _ Htip) as Hth.
  unfold ValidateBlock. rewrite Hh, Htip.
  assert ((block.Height (block.header blk) =? 0) = false) as -> by lia.
  assert ((block.Height (block.header blk) =? add64 (TipInfo.Height tip) 1) = false) as ->.
  { rewrite Hth in *. destruct (add64_cases tipHeight Hu) as [-> | ->]; lia. }
  simpl. repeat split; try reflexivity. eexists; reflexivity.
Qed.

(** C1.  Let the chain not be paused and the archive report the tip, so
    that [CommitBlock] reaches the archive's [PutBlock].  The archive after
    [CommitBlock] is the one [PutBlock] left and the set of subscribers is
    as before.  When [PutBlock] returns nil, [CommitBlock] returns nil and
    the state it returns holds one delivery of the block to every
    registered subscriber, in registration order, after the deliveries made
    before.  When [PutBlock] fails (an error other than the "already
    exists" condition), [CommitBlock] returns that error, no delivery is
    made, and the chain is as before but for the archive, which is as the
    failed [PutBlock] left it: the chain keeps no tip of its own, and the
    tip height and tip hash are as before when that [PutBlock] left the
    archive's height and block hashes as they were. *)
Theorem CommitBlock_notifies_after_durable_write
    (bc : blockchain D) (blk : block.Block) (tipHeight : Z) (ctx : Context)
    (d : D) (err : option error) :
  pause bc = false ->
  dao_Height (dao bc) = Ok tipHeight ->
  context bc context_Background tipHeight = Ok ctx ->
  dao_PutBlock (dao bc) (commit_context bc ctx blk) blk = (d, err) ->
  let bc' := fst (CommitBlock bc blk) in
  let ret := snd (CommitBlock bc blk) in
  dao bc' = d
  /\ subscribers bc' = subscribers bc
  /\ match err with
     | None =>
         ret = None
         /\ notifications bc'
            = notifications bc ++ map (fun s => (s, blk)) (subscribers bc)
         /\ (forall s, In s (subscribers bc) -> In (s, blk) (notifications bc'))
     | Some e =>
         cause_is err filedao_ErrAlreadyExist = false ->
         cause_is err blockdao_ErrAlreadyExist = false ->
         ret = Some e
         /\ notifications bc' = notifications bc
         /\ bc' = with_dao bc d
         /\ (dao_Height d = dao_Height (dao bc) ->
             (forall h, dao_GetBlockHash d h = dao_GetBlockHash (dao bc) h) ->
             TipHeight bc' = TipHeight bc /\ TipHash bc' = TipHash bc)
     end.
Proof.
  intros Hp Hh Hctx Hput. simpl.
  unfold CommitBlock. rewrite Hp.
  rewrite (commitBlock_after_PutBlock _ _ _ _ _ _ Hh Hctx Hput).
  destruct (after_PutBlock_archive bc blk d err) as [Hd Hs].
  split; [exact Hd|]. split; [exact Hs|].
  destruct err as [e|].
  - intros Hf Hb. rewrite (after_PutBlock_failure _ _ _ _ Hf Hb). simpl.
    split; [reflexivity|]. split; [reflexivity|]. split; [reflexivity|].
    intros Hkh Hkg. exact (tip_of_with_dao bc d Hkh Hkg).
  - rewrite after_PutBlock_nil. simpl. rewrite notifications_after_emit.
    repeat split.
    intros s Hin. apply in_or_app. right. apply in_map_iff. now exists s.
Qed.


End ChainFacts.

(* ===================================================================== *)
(** * The methods run on the in-memory collaborators *)
(* ===================================================================== *)

Section Runs.
Import batch db fixtures fixtures_more.

(** ** Buffered store *)

Lemma Get_reads_buffer_over_store_witness :
  Get (fst (WriteBatch (fst (Put kvbOverK1 "ns" k1 v2))
              [mkWriteInfo batch.Put "ns" k2 v2 "later"])) "ns" k1 = (v2, None)
  /\ cause_is (snd (Get (fst (Delete kvbOverK1 "ns" k1)) "ns" k1)) db_ErrNotExist = true
  /\ Get kvbOverK1 "ns" k1 = (v1, None).
Proof.
  destruct (Get_reads_buffer_over_store kvbOverK1 "ns" k1) as [Hput [Hdel Habs]].
  split; [|split].
  - apply (Hput v2 [mkWriteInfo batch.Put "ns" k2 v2 "later"]).
    repeat constructor.
  - apply (Hdel []). constructor.
  - destruct (Habs (Forall_nil _)) as [_ Hsame]. apply Hsame. reflexivity.
Defined.



(** A tombstone matches the query when the predicate holds of its key and
    the empty value: under a predicate that asks for a value, the
    tombstone is passed over and the store's hit stays. *)
Example Filter_passes_over_unmatched_tombstone :
  Filter (MustDelete kvbOverK1 "ns" k1) "ns"
    (fun _ v => (0 <? List.length v)%nat) [] []
  = Returns ([k1], [v1], None).
Proof. reflexivity. Qed.

(** Lists of different length, which no store returns, make the removal
    panic. *)
Example drop_same_key_panics_on_short_values :
  drop_same_key k2 [k1; k2] [v1] = Panics.
Proof. reflexivity. Qed.

Example Flush_failure_keeps_buffer :
  let broken := mkMemStore [("ns", k1, v1)] (Some (errors_Errorf "disk full")) in
  let f := mkFlusher (MustPut (mkKvStoreWithBuffer broken []) "ns" k2 v2) None in
  snd (Flush f) = Some (errors_Errorf "disk full")
  /\ buffer (kvb (fst (Flush f))) = buffer (kvb f)
  /\ Size (kvb (fst (Flush f))) = 1%nat.
Proof. repeat split. Qed.

Example Flush_success_clears_buffer :
  let f := mkFlusher (MustPut kvbOverK1 "ns" k2 v2) None in
  snd (Flush f) = None
  /\ Size (kvb (fst (Flush f))) = 0%nat
  /\ Get (kvb (fst (Flush f))) "ns" k2 = (v2, None).
Proof. repeat split. Qed.

(** ** Indexer *)

Lemma accessors_empty_before_start_witness :
  contractstaking.Buckets indexerAt120 50 = ([], None)
  /\ contractstaking.TotalBucketCount indexerAt120 50 = (0, None)
  /\ contractstaking.Buckets indexerAt120 120 = ([7; 9], None).
Proof.
  assert (50 < contractstaking.ContractDeployHeight (contractstaking.config indexerAt120))
    as Hlt by (simpl; lia).
  destruct (accessors_empty_before_start indexerAt120 50 Hlt)
    as (_ & Hb & _ & _ & _ & Hc & _).
  split; [exact Hb|]. split; [exact Hc|]. reflexivity.
Defined.

Lemma PutBlock_expected_height_only_witness :
  contractstaking.expectHeight indexerAt100 = 100
  /\ contractstaking.PutBlock heightNS heightKey indexerAt100 (stakingBlock 99 [stakeLog x07])
     = (indexerAt100, None)
  /\ (exists msg,
         contractstaking.PutBlock heightNS heightKey indexerAt100
           (stakingBlock 101 [stakeLog x07])
         = (indexerAt100, Some (errors_Errorf msg)))
  /\ contractstaking.cache
       (fst (contractstaking.PutBlock heightNS heightKey indexerAt100
               (stakingBlock 100 [stakeLog x07])))
     = mkMemCache 100 [7].
Proof.
  split; [reflexivity|]. split; [|split].
  - destruct (PutBlock_expected_height_only heightNS heightKey indexerAt100
                (stakingBlock 99 [stakeLog x07])) as (_ & _ & Hlow & _).
    apply Hlow. simpl. reflexivity.
  - destruct (PutBlock_expected_height_only heightNS heightKey indexerAt100
                (stakingBlock 101 [stakeLog x07])) as (_ & _ & _ & Hhigh & _).
    apply Hhigh. simpl. reflexivity.
  - destruct (PutBlock_expected_height_only heightNS heightKey indexerAt100
                (stakingBlock 100 [stakeLog x07])) as (_ & _ & _ & _ & Hat & _).
    rewrite Hat by reflexivity. reflexivity.
Defined.

(** A delta with a negative id makes the merge fail after it has moved the
    height: the cache after [commit] is the one loaded from the store. *)
Example commit_merge_failure_reloads :
  let s := sampleIndexer (mkMemStore [(heightNS, heightKey, Uint64ToBytesBigEndian 119)] None)
             (mkMemCache 119 [7]) 100 in
  let r := contractstaking.commit heightNS heightKey s [-1] 120 in
  snd r = Some (errors_Errorf "invalid bucket id")
  /\ contractstaking.cache (fst r) = mkMemCache 119 []
  /\ fst (contractstaking.cache_Merge (contractstaking.cache s) [-1] 120) = mkMemCache 120 [7].
Proof. repeat split. Qed.

Example commit_write_failure_reloads :
  let s := sampleIndexer
             (mkMemStore [(heightNS, heightKey, Uint64ToBytesBigEndian 119)]
                (Some (errors_Errorf "disk full")))
             (mkMemCache 119 []) 100 in
  let r := contractstaking.commit heightNS heightKey s [8] 120 in
  snd r = Some (errors_Errorf "disk full")
  /\ contractstaking.cache (fst r) = mkMemCache 119 [].
Proof. repeat split. Qed.

Example commit_success_writes_height :
  let s := sampleIndexer emptyStore (mkMemCache 119 []) 100 in
  let r := contractstaking.commit heightNS heightKey s [8] 120 in
  snd r = None
  /\ contractstaking.cache (fst r) = mkMemCache 120 [8]
  /\ contractstaking.reloaded (contractstaking.config s) (contractstaking.kvstore (fst r))
     = mkMemCache 120 [8].
Proof. repeat split. Qed.

(** C3.  [commit] on a disk that has begun to fail.  The indexer is in
    step with the checkpoint on disk, height 119 and bucket 7.  The merge
    of block 120 succeeds and the write of the batch fails.  The reload
    then reads the height, fails on the range read of the buckets and
    returns that error, which [commit] drops: [commit] returns the error of
    the write only, and the indexer's cache is the half-loaded one, at
    height 119 with no bucket.  It is neither the cache of the checkpoint,
    which a reload from the same rows gives when the reads succeed, nor
    marked in any way: [Buckets] at height 119 answers with no bucket and a
    nil error. *)
Theorem commit_keeps_half_loaded_cache :
  let s := indexerOnFailingDisk in
  let r := contractstaking.commit heightNS heightKey s [8] 120 in
  let merged := contractstaking.mkIndexer (contractstaking.kvstore s)
                  (mkMemCache 120 [7; 8]) (contractstaking.config s) in
  let healthy := mkFlakyStore (mkMemStore checkpoint119 None) None in
  contractstaking.cache_Merge (contractstaking.cache s) [8] 120 = (mkMemCache 120 [7; 8], None)
  /\ snd (contractstaking.reloadCache merged) = Some (errors_Errorf "read failed")
  /\ snd r = Some (errors_Errorf "disk full")
  /\ rows (disk (contractstaking.kvstore (fst r))) = checkpoint119
  /\ contractstaking.cache (fst r) = mkMemCache 119 []
  /\ contractstaking.reloaded (contractstaking.config s) healthy = mkMemCache 119 [7]
  /\ contractstaking.Buckets (fst r) 119 = ([], None).
Proof. repeat split. Qed.

End Runs.

Section ChainRuns.
Import blockchain fixtures fixtures_more.

Lemma ValidateBlock_rejects_wrong_height_witness :
  cause_is (snd (ValidateBlock noFeeCheck chainAtBlock1 (Some block3) []))
    blockchain_ErrInvalidTipHeight = true
  /\ fst (ValidateBlock noFeeCheck chainAtBlock1 (Some block3) []) = chainAtBlock1.
Proof.
  destruct (ValidateBlock_rejects_wrong_height noFeeCheck chainAtBlock1 block3 [] 1
              (TipInfo.mk 1 0 (repeat xb1 32) 1546329605 None 0 0))
    as (Hcause & _ & Hsame & _).
  - reflexivity.
  - unfold is_uint64, MaxUint64. lia.
  - reflexivity.
  - simpl. lia.
  - simpl. lia.
  - split; assumption.
Defined.

Lemma CommitBlock_notifies_after_durable_write_witness :
  (snd (CommitBlock chainAtGenesis block1) = None
   /\ notifications (fst (CommitBlock chainAtGenesis block1))
      = [("indexer", block1); ("api", block1)]
   /\ TipHeight (fst (CommitBlock chainAtGenesis block1)) = Returns 1)
  /\ (snd (CommitBlock chainOnBrokenDisk block1) = Some (errors_Errorf "disk full")
      /\ notifications (fst (CommitBlock chainOnBrokenDisk block1)) = []
      /\ fst (CommitBlock chainOnBrokenDisk block1) = chainOnBrokenDisk
      /\ TipHeight (fst (CommitBlock chainOnBrokenDisk block1)) = Returns 0).
Proof.
  split.
  - destruct (CommitBlock_notifies_after_durable_write chainAtGenesis block1 0
                (mkContext
                   (Some (BlockchainCtx.mk
                            (TipInfo.mk 0 0 (repeat x47 32) 1546329600 None 0 0) 1 4689))
                   (Some sampleGenesis) None)
                (mkMemDAO [block1] None) None)
      as (_ & _ & Hret & Hnote & _); [reflexivity ..|].
    split; [exact Hret|]. split; [exact Hnote|]. reflexivity.
  - destruct (CommitBlock_notifies_after_durable_write chainOnBrokenDisk block1 0
                (mkContext
                   (Some (BlockchainCtx.mk
                            (TipInfo.mk 0 0 (repeat x47 32) 1546329600 None 0 0) 1 4689))
                   (Some sampleGenesis) None)
                (mkMemDAO [] (Some (errors_Errorf "disk full")))
                (Some (errors_Errorf "disk full")))
      as (_ & _ & Hfail); [reflexivity ..|].
    destruct (Hfail eq_refl eq_refl) as (Hret & Hnote & Hsame & Htip).
    destruct (Htip eq_refl (fun h => eq_refl)) as [Hheight _].
    split; [exact Hret|]. split; [exact Hnote|]. split; [exact Hsame|].
    rewrite Hheight. reflexivity.
Defined.


(** C1 as the specification words it, with the tip unchanged by every
    failed write, does not hold of an archive whose write is not
    all-or-nothing.  The archive stores block 1 and then returns an error: [CommitBlock]
    returns that error and notifies no subscriber, and the tip height,
    which the chain reads from the archive, has moved from 0 to 1 and the
    tip hash to the hash of block 1.  And an error of [PutBlock] is not
    always returned: the "already exists" condition is answered with
    nil. *)
Lemma CommitBlock_failed_write_moves_tip :
  (snd (dao_PutBlock (dao chainOverLeakyArchive) context_Background block1)
     = Some (errors_Errorf "failed to index block")
   /\ snd (CommitBlock chainOverLeakyArchive block1)
      = Some (errors_Errorf "failed to index block")
   /\ notifications (fst (CommitBlock chainOverLeakyArchive block1)) = []
   /\ TipHeight chainOverLeakyArchive = Returns 0
   /\ TipHeight (fst (CommitBlock chainOverLeakyArchive block1)) = Returns 1
   /\ TipHash chainOverLeakyArchive = repeat x00 32
   /\ TipHash (fst (CommitBlock chainOverLeakyArchive block1)) = repeat xb1 32)
  /\ (snd (dao_PutBlock (dao chainAtBlock1) context_Background block1)
        = Some (errors_Wrap (errors_New filedao_ErrAlreadyExist) "block already exist")
      /\ snd (CommitBlock chainAtBlock1 block1) = None).
Proof. repeat split. Qed.


End ChainRuns.

(* ===================================================================== *)
(** * The buffered store: what [Get] and [Filter] never do *)
(* ===================================================================== *)

Section BufferedStoreMore.
Import batch db filter_spec range_query.
Context {S : Type} `{KVStore S}.

(** X1.  Whatever the store and the buffer hold, the error [Get] returns
    never has the buffer's [ErrAlreadyDeleted] as its cause: a tombstone
    is always reported as the store's [ErrNotExist]. *)
Theorem Get_never_reports_AlreadyDeleted (kvb : kvStoreWithBuffer S) (ns : string)
    (k : bytes) :
  cause_is (snd (Get kvb ns k)) batch_ErrAlreadyDeleted = false
  /\ (cause_is (snd (CachedBatch_Get (buffer kvb) ns k)) batch_ErrAlreadyDeleted = true ->
      cause_is (snd (Get kvb ns k)) db_ErrNotExist = true).
Proof.
  unfold Get.
  destruct (CachedBatch_Get (buffer kvb) ns k) as [v err]. simpl.
  destruct (cause_is err batch_ErrNotExist) eqn:Hne.
  - destruct (store_Get (store kvb) ns k) as [v' err'].
    destruct (cause_is err' batch_ErrAlreadyDeleted) eqn:Hd; simpl.
    + split; [reflexivity|]. reflexivity.
    + split; [exact Hd|]. intros Hdel.
      apply cause_is_spec in Hdel. apply cause_is_spec in Hne. congruence.
  - destruct (cause_is err batch_ErrAlreadyDeleted) eqn:Hd; simpl.
    + split; reflexivity.
    + split; [exact Hd|discriminate].
Qed.

Lemma CachedBatch_Get_other (cb : CachedBatch) (e : WriteInfo) (ns : string) (k : bytes) :
  same_key ns k e = false ->
  CachedBatch_Get (cb ++ [e]) ns k = CachedBatch_Get cb ns k.
Proof.
  intros He. unfold CachedBatch_Get. rewrite rev_app_distr. simpl. now rewrite He.
Qed.

Lemma same_key_other (t : WriteType) (ns ns' : string) (k k' v : bytes) (msg : string) :
  ns <> ns' \/ k <> k' ->
  same_key ns' k' (mkWriteInfo t ns k v msg) = false.
Proof.
  unfold same_key; simpl. intros [Hns|Hk].
  - apply String.eqb_neq in Hns. now rewrite Hns.
  - apply bytes_Equal_neq in Hk. rewrite Hk. apply andb_false_r.
Qed.

(** X2.  A [Put] or [Delete] of one key leaves what [Get] returns for
    every other key, or the same key of another namespace, as it was. *)
Theorem Get_unchanged_by_other_keys (kvb : kvStoreWithBuffer S) (ns ns' : string)
    (k k' v : bytes) :
  ns <> ns' \/ k <> k' ->
  Get (fst (Put kvb ns k v)) ns' k' = Get kvb ns' k'
  /\ Get (fst (Delete kvb ns k)) ns' k' = Get kvb ns' k'.
Proof.
  intros Hother. unfold Get, Put, Delete, CachedBatch_Put, CachedBatch_Delete. simpl.
  rewrite !CachedBatch_Get_other by (apply same_key_other; assumption).
  split; reflexivity.
Qed.

(** ** The loop of [Filter] is a loop over the list of entries *)

Lemma Filter_loop_entries (kvb : kvStoreWithBuffer S) (ns : string) (cond : Condition)
    (minKey maxKey : bytes) (rest : list WriteInfo) :
  forall (i : nat) (fk fv : list bytes),
    skipn i (buffer kvb) = rest ->
    Filter_loop kvb ns cond minKey maxKey (List.length rest) i fk fv
    = Filter_entries ns cond minKey maxKey rest fk fv.
Proof.
  induction rest as [|e rest IH]; intros i fk fv Hskip; [reflexivity|].
  apply skipn_cons_inv in Hskip as [Hnth Hskip].
  simpl. unfold CachedBatch_Entry. rewrite Hnth.
  destruct (Filter_entry ns cond minKey maxKey e fk fv) as [[fk' fv']|]; [|reflexivity].
  now apply IH.
Qed.

Lemma Filter_entry_unmatched (ns : string) (cond : Condition) (minKey maxKey : bytes)
    (e : WriteInfo) (fk fv : list bytes) :
  matches ns cond minKey maxKey e = false ->
  Filter_entry ns cond minKey maxKey e fk fv = Returns (fk, fv).
Proof.
  unfold matches, Filter_entry.
  destruct (String.eqb (namespace e) ns); simpl; [|reflexivity].
  destruct ((0 <? List.length minKey)%nat && (bytes_Compare (key e) minKey =? -1));
    simpl; [reflexivity|].
  destruct ((0 <? List.length maxKey)%nat && (bytes_Compare (key e) maxKey =? 1));
    simpl; [reflexivity|].
  now intros ->.
Qed.

Lemma Filter_entries_matching (ns : string) (cond : Condition) (minKey maxKey : bytes)
    (entries : list WriteInfo) :
  forall fk fv,
    Filter_entries ns cond minKey maxKey entries fk fv
    = Filter_entries ns cond minKey maxKey
        (filter (matches ns cond minKey maxKey) entries) fk fv.
Proof.
  induction entries as [|e entries IH]; intros fk fv; [reflexivity|].
  simpl. destruct (matches ns cond minKey maxKey e) eqn:Hm.
  - simpl. destruct (Filter_entry ns cond minKey maxKey e fk fv) as [[fk' fv']|];
      [apply IH|reflexivity].
  - rewrite Filter_entry_unmatched by assumption. apply IH.
Qed.

Lemma Filter_as_entries (kvb : kvStoreWithBuffer S) (ns : string) (cond : Condition)
    (minKey maxKey : bytes) :
  Filter kvb ns cond minKey maxKey =
  let '(fk, fv, err) := store_Filter (store kvb) ns cond minKey maxKey in
  match err with
  | Some e => Returns (fk, fv, Some e)
  | None => Filter_entries ns cond minKey maxKey (buffer kvb) fk fv
  end.
Proof.
  unfold Filter. destruct (store_Filter _ _ _ _ _) as [[fk fv] [e|]]; [reflexivity|].
  apply Filter_loop_entries. reflexivity.
Qed.

(** X3.  [Filter] reads the buffer through its matching entries only
    (namespace, key bounds, predicate): with every other entry taken out of
    the buffer the result, a panic included, is the same.  A buffer without
    a matching entry, the empty buffer among them, gives the store's
    result as it is. *)
Theorem Filter_reads_matching_entries_only (kvb : kvStoreWithBuffer S) (ns : string)
    (cond : Condition) (minKey maxKey : bytes) :
  Filter kvb ns cond minKey maxKey
  = Filter (mkKvStoreWithBuffer (store kvb)
              (filter (matches ns cond minKey maxKey) (buffer kvb)))
      ns cond minKey maxKey
  /\ (filter (matches ns cond minKey maxKey) (buffer kvb) = [] ->
      Filter kvb ns cond minKey maxKey
      = Returns (store_Filter (store kvb) ns cond minKey maxKey)).
Proof.
  rewrite !Filter_as_entries. simpl.
  destruct (store_Filter (store kvb) ns cond minKey maxKey) as [[fk fv] [e|]].
  - split; reflexivity.
  - split; [apply Filter_entries_matching|].
    intros Hnone. rewrite Filter_entries_matching, Hnone. reflexivity.
Qed.

End BufferedStoreMore.

Section RangeQueryMore.
Import batch db filter_spec.
Context {S : Type} `{KVStore S}.

Lemma Filter_pairs (kvb : kvStoreWithBuffer S) (ns : string) (cond : Condition)
    (minKey maxKey : bytes) (fk0 fv0 : list bytes) :
  store_Filter (store kvb) ns cond minKey maxKey = (fk0, fv0, None) ->
  List.length fk0 = List.length fv0 ->
  Filter kvb ns cond minKey maxKey
  = Returns (keys (merge ns cond minKey maxKey (combine fk0 fv0) (buffer kvb)),
             vals (merge ns cond minKey maxKey (combine fk0 fv0) (buffer kvb)), None).
Proof.
  intros Hstore Hlen.
  destruct (keys_vals_combine fk0 fv0 Hlen) as [Hk0 Hv0].
  unfold Filter. rewrite Hstore.
  pose proof (Filter_loop_pairs kvb ns cond minKey maxKey (buffer kvb) O
                (combine fk0 fv0) eq_refl) as Hloop.
  rewrite Hk0, Hv0 in Hloop. exact Hloop.
Qed.

Lemma merge_entry_origin (ns : string) (cond : Condition) (minKey maxKey : bytes)
    (kvs : list (bytes * bytes)) (e : WriteInfo) (kv : bytes * bytes) :
  In kv (merge_entry ns cond minKey maxKey kvs e) ->
  In kv kvs
  \/ (matches ns cond minKey maxKey e = true /\ writeType e = batch.Put
      /\ kv = (key e, value e)).
Proof.
  unfold merge_entry. destruct (matches ns cond minKey maxKey e); [|auto].
  destruct (writeType e).
  - intros Hin. apply in_app_or in Hin as [Hin|[<-|[]]]; [|auto].
    left. eapply In_without; eassumption.
  - intros Hin. left. eapply In_without; eassumption.
Qed.

Lemma merge_origin (ns : string) (cond : Condition) (minKey maxKey : bytes)
    (entries : list WriteInfo) (kv : bytes * bytes) :
  forall kvs,
    In kv (merge ns cond minKey maxKey kvs entries) ->
    In kv kvs
    \/ exists e, In e entries /\ matches ns cond minKey maxKey e = true
                 /\ writeType e = batch.Put /\ kv = (key e, value e).
Proof.
  induction entries as [|e entries IH]; intros kvs Hin; simpl in Hin; [auto|].
  apply IH in Hin as [Hin|[e' [Hin' He']]].
  - apply merge_entry_origin in Hin as [Hin|He]; [auto|].
    right. exists e. split; [now left|exact He].
  - right. exists e'. split; [now right|exact He'].
Qed.

Lemma merge_entry_only_from (ns : string) (cond : Condition) (minKey maxKey : bytes)
    (k v : bytes) (kvs : list (bytes * bytes)) (e : WriteInfo) :
  matches ns cond minKey maxKey e && bytes_Equal (key e) k = false ->
  In (k, v) (merge_entry ns cond minKey maxKey kvs e) -> In (k, v) kvs.
Proof.
  intros Hother Hin. apply merge_entry_origin in Hin as [Hin|(Hm & _ & Heq)];
    [assumption|].
  injection Heq as -> _. rewrite Hm, bytes_Equal_refl in Hother. discriminate.
Qed.

Lemma merge_only_from (ns : string) (cond : Condition) (minKey maxKey : bytes)
    (k v : bytes) (entries : list WriteInfo) :
  no_match_of ns cond minKey maxKey k entries ->
  forall kvs, In (k, v) (merge ns cond minKey maxKey kvs entries) -> In (k, v) kvs.
Proof.
  induction 1 as [|e entries He _ IH]; intros kvs Hin; simpl in Hin; [assumption|].
  apply IH in Hin. eapply merge_entry_only_from; eassumption.
Qed.

(** X4.  When the store returns as many values as keys, [Filter] returns
    normally and with a nil error (reading the buffer never fails and no
    slice bound is exceeded), its two lists are of equal length, and every
    key-value pair it returns is either a pair the store returned or the
    key and value of a matching Put of the buffer: nothing is made up, and
    a Delete contributes nothing. *)
Theorem Filter_returns_store_or_put_pairs (kvb : kvStoreWithBuffer S) (ns : string)
    (cond : Condition) (minKey maxKey : bytes) (fk0 fv0 : list bytes) :
  store_Filter (store kvb) ns cond minKey maxKey = (fk0, fv0, None) ->
  List.length fk0 = List.length fv0 ->
  exists fk fv : list bytes,
    Filter kvb ns cond minKey maxKey = Returns (fk, fv, None)
    /\ List.length fk = List.length fv
    /\ forall k v : bytes,
         In (k, v) (combine fk fv) ->
         In (k, v) (combine fk0 fv0)
         \/ exists e, In e (buffer kvb)
                      /\ matches ns cond minKey maxKey e = true
                      /\ writeType e = batch.Put /\ key e = k /\ value e = v.
Proof.
  intros Hstore Hlen.
  eexists; eexists. split; [apply Filter_pairs; eassumption|].
  split; [apply keys_vals_length|].
  intros k v Hin. rewrite combine_keys_vals in Hin.
  apply merge_origin in Hin as [Hin|[e (Hin & Hm & Ht & Heq)]]; [auto|].
  injection Heq as -> ->. right. exists e. auto.
Qed.

(** X5.  A key of which the buffer holds no matching entry is returned by
    [Filter] exactly as the store returned it: its pairs in the result are
    its pairs in the store's result.  So a Put whose value fails the
    predicate, or a Delete under a predicate that fails on the empty
    value, leaves the store's hit for the key in the result. *)
Theorem Filter_keeps_store_hits_of_unmatched_keys (kvb : kvStoreWithBuffer S)
    (ns : string) (cond : Condition) (minKey maxKey : bytes) (fk0 fv0 fk fv : list bytes)
    (k : bytes) :
  store_Filter (store kvb) ns cond minKey maxKey = (fk0, fv0, None) ->
  List.length fk0 = List.length fv0 ->
  no_match_of ns cond minKey maxKey k (buffer kvb) ->
  Filter kvb ns cond minKey maxKey = Returns (fk, fv, None) ->
  forall v : bytes, In (k, v) (combine fk fv) <-> In (k, v) (combine fk0 fv0).
Proof.
  intros Hstore Hlen Hno Hf v.
  rewrite (Filter_pairs _ _ _ _ _ _ _ Hstore Hlen) in Hf.
  injection Hf as <- <-. rewrite combine_keys_vals. split.
  - now apply merge_only_from.
  - now apply merge_keeps_pair.
Qed.

End RangeQueryMore.

Section BufferedStoreRuns.
Import batch db fixtures.

Lemma Get_unchanged_by_other_keys_witness :
  Get (fst (Put kvbOverK1 "ns" k2 v2)) "ns" k1 = (v1, None)
  /\ Get (fst (Delete kvbOverK1 "other" k1)) "ns" k1 = (v1, None).
Proof.
  split.
  - destruct (Get_unchanged_by_other_keys kvbOverK1 "ns" "ns" k2 k1 v2) as [Hput _].
    + right. discriminate.
    + rewrite Hput. reflexivity.
  - destruct (Get_unchanged_by_other_keys kvbOverK1 "other" "ns" k1 k1 []) as [_ Hdel].
    + left. discriminate.
    + rewrite Hdel. reflexivity.
Defined.

Lemma Filter_returns_store_or_put_pairs_witness :
  exists fk fv,
    Filter kvbScenario "ns" acceptAll k1 k2 = Returns (fk, fv, None)
    /\ List.length fk = List.length fv.
Proof.
  destruct (Filter_returns_store_or_put_pairs kvbScenario "ns" acceptAll k1 k2 [k1] [v1])
    as (fk & fv & Hf & Hlen & _); [reflexivity ..|].
  exists fk, fv. split; assumption.
Defined.

(** The store holds k1 with a value; the buffer puts the empty value for
    k1.  Under a predicate that asks for a value the Put does not match:
    [Filter] still returns the store's pair, while [Get] returns the empty
    value put. *)
Lemma Filter_keeps_store_hits_of_unmatched_keys_witness :
  let valued : Condition := fun _ v => (0 <? List.length v)%nat in
  let kvb := MustPut kvbOverK1 "ns" k1 [] in
  In (k1, v1) (combine [k1] [v1])
  /\ Filter kvb "ns" valued [] [] = Returns ([k1], [v1], None)
  /\ Get kvb "ns" k1 = ([], None).
Proof.
  intros valued kvb.
  assert (Filter kvb "ns" valued [] [] = Returns ([k1], [v1], None)) as Hf by reflexivity.
  split; [|split; [exact Hf|reflexivity]].
  apply (Filter_keeps_store_hits_of_unmatched_keys kvb "ns" valued [] [] [k1] [v1]
           [k1] [v1] k1); [reflexivity|reflexivity| |exact Hf|].
  - repeat constructor.
  - now left.
Defined.

End BufferedStoreRuns.

(* ===================================================================== *)
(** * The indexer: events, redelivery, start and stop *)
(* ===================================================================== *)

Section IndexerMore.
Import batch db contractstaking indexing.
Context {S Cache Delta Handler TBucket TBucketType : Type}.
Context `{KVStore S} `{StoreLifecycle S}
        `{CacheOps S Cache Delta TBucket TBucketType}
        `{HandlerOps Cache Delta Handler}.
Variable _StakingNS : string.
Variable _stakingHeightKey : bytes.

Lemma handle_events_app (handler : Handler) (height : Z) (logs logs' : list block.Log) :
  handle_events handler height (logs ++ logs') =
  let '(handler', err) := handle_events handler height logs in
  match err with
  | Some e => (handler', Some e)
  | None => handle_events handler' height logs'
  end.
Proof.
  revert handler; induction logs as [|log logs IH]; intros handler; simpl.
  - reflexivity.
  - destruct (HandleEvent handler height log) as [handler' [e|]]; [reflexivity|].
    apply IH.
Qed.

Lemma handle_logs_events (s : Indexer S Cache) (handler : Handler) (height : Z)
    (logs : list block.Log) :
  handle_logs s handler height logs =
  handle_events handler height
    (filter (fun log => String.eqb (block.Address log) (ContractAddress (config s))) logs).
Proof.
  revert handler; induction logs as [|log logs IH]; intros handler; simpl.
  - reflexivity.
  - destruct (String.eqb (block.Address log) (ContractAddress (config s))); simpl.
    + destruct (HandleEvent handler height log) as [handler' [e|]]; [reflexivity|].
      apply IH.
    + apply IH.
Qed.

Lemma handle_receipts_events (s : Indexer S Cache) (handler : Handler) (height : Z)
    (receipts : list block.Receipt) :
  handle_receipts s handler height receipts =
  handle_events handler height (relevant_logs s receipts).
Proof.
  revert handler; induction receipts as [|receipt receipts IH]; intros handler.
  - reflexivity.
  - unfold relevant_logs. simpl. fold (relevant_logs s receipts).
    destruct (block.Status receipt =? ReceiptStatus_Success); simpl.
    + rewrite handle_events_app, handle_logs_events.
      destruct (handle_events handler height _) as [handler' [e|]]; [reflexivity|].
      apply IH.
    + apply IH.
Qed.

(** X6.  Of a block at the expected height, [PutBlock] hands to the event
    handler exactly the logs of the receipts with the success status whose
    address is the contract's, in block order, one after the other from a
    new handler, and stops at the first error, which it returns with the
    indexer as it was; when every event is handled it commits the handler's
    result at the block's height. *)
Theorem PutBlock_handles_contract_events_in_order (s : Indexer S Cache)
    (blk : block.Block) :
  block.Height (block.header blk) = expectHeight s ->
  PutBlock _StakingNS _stakingHeightKey s blk =
  let height := block.Height (block.header blk) in
  let '(handler, err) :=
    handle_events (newContractStakingEventHandler (cache s)) height
      (relevant_logs s (block.Receipts blk)) in
  match err with
  | Some e => (s, Some e)
  | None => commit _StakingNS _stakingHeightKey s handler height
  end.
Proof.
  intros Hat. unfold PutBlock. rewrite Hat.
  rewrite Z.ltb_irrefl.
  assert ((expectHeight s >? expectHeight s) = false) as -> by lia.
  unfold process. rewrite Hat, handle_receipts_events. reflexivity.
Qed.

(** X7.  A block at the expected height without a log of the contract
    among its successful receipts (no receipts, failed receipts only, the
    logs of other contracts) is still committed: the result of a new
    handler is merged and the height of the block is written. *)
Theorem PutBlock_without_events_still_commits (s : Indexer S Cache) (blk : block.Block) :
  block.Height (block.header blk) = expectHeight s ->
  relevant_logs s (block.Receipts blk) = [] ->
  PutBlock _StakingNS _stakingHeightKey s blk
  = commit _StakingNS _stakingHeightKey s (newContractStakingEventHandler (cache s))
      (expectHeight s).
Proof.
  intros Hat Hnone. unfold PutBlock. rewrite Hat.
  rewrite Z.ltb_irrefl.
  assert ((expectHeight s >? expectHeight s) = false) as -> by lia.
  unfold process. rewrite Hat, handle_receipts_events, Hnone. reflexivity.
Qed.

Lemma commit_config (s : Indexer S Cache) (handler : Handler) (height : Z) :
  config (fst (commit _StakingNS _stakingHeightKey s handler height)) = config s.
Proof.
  unfold commit, reloadCache, loadFromDB.
  destruct (Result handler) as [b delta].
  destruct (cache_Merge (cache s) delta height) as [c [e|]]; simpl.
  - destruct (cache_LoadFromDB _ _); reflexivity.
  - destruct (store_WriteBatch (kvstore s) _) as [st [e|]]; simpl; [|reflexivity].
    destruct (cache_LoadFromDB _ _); reflexivity.
Qed.

Lemma PutBlock_config (s : Indexer S Cache) (blk : block.Block) :
  config (fst (PutBlock _StakingNS _stakingHeightKey s blk)) = config s.
Proof.
  unfold PutBlock.
  destruct (block.Height (block.header blk) <? expectHeight s); [reflexivity|].
  destruct (block.Height (block.header blk) >? expectHeight s); [reflexivity|].
  unfold process.
  destruct (handle_receipts s _ _ _) as [handler [e|]]; [reflexivity|].
  apply commit_config.
Qed.

(** X8.  [PutBlock] never changes the configuration of the indexer, and a
    delivery is accepted again once taken: when a block at the expected
    height below [MaxUint64] is put with a nil result and the cache then
    stands at the block's height (what a merge at that height records),
    the next expected height is the block's height plus one, and putting
    the same block again returns nil and changes nothing. *)
Theorem PutBlock_redelivery_is_noop (s s' : Indexer S Cache) (blk : block.Block) :
  let height := block.Height (block.header blk) in
  height = expectHeight s ->
  is_uint64 height -> height < MaxUint64 ->
  PutBlock _StakingNS _stakingHeightKey s blk = (s', None) ->
  cache_Height (cache s') = height ->
  config s' = config s
  /\ expectHeight s' = height + 1
  /\ PutBlock _StakingNS _stakingHeightKey s' blk = (s', None).
Proof.
  intros height Hat Hu Hlt Hput Hcache.
  assert (config s' = config s) as Hcfg
    by (rewrite <- (PutBlock_config s blk), Hput; reflexivity).
  assert (ContractDeployHeight (config s) <= height) as Hstart.
  { rewrite Hat, expectHeight_max. lia. }
  assert (expectHeight s' = height + 1) as Hnext.
  { rewrite expectHeight_max, Hcache, Hcfg, add64_succ by assumption. lia. }
  split; [exact Hcfg|]. split; [exact Hnext|].
  unfold PutBlock. fold height. rewrite Hnext.
  assert ((height <? height + 1) = true) as -> by lia. reflexivity.
Qed.

(** X9.  From the start height on, the start height itself included, every
    read accessor returns what the cache returns for the height, error
    included; [BucketTypes] returns the values of the cache's map of
    active types, and no list with the cache's error. *)
Theorem accessors_read_cache_from_start (s : Indexer S Cache) (height : Z) :
  ContractDeployHeight (config s) <= height ->
  (forall candidate,
      CandidateVotes s candidate height = cache_CandidateVotes (cache s) candidate height)
  /\ Buckets s height = cache_Buckets (cache s) height
  /\ (forall id, Bucket s id height = cache_Bucket (cache s) id height)
  /\ (forall indices,
         BucketsByIndices s indices height
         = cache_BucketsByIndices (cache s) indices height)
  /\ (forall candidate,
         BucketsByCandidate s candidate height
         = cache_BucketsByCandidate (cache s) candidate height)
  /\ TotalBucketCount s height = cache_TotalBucketCount (cache s) height
  /\ BucketTypes s height
     = match snd (cache_ActiveBucketTypes (cache s) height) with
       | Some e => ([], Some e)
       | None => (map snd (fst (cache_ActiveBucketTypes (cache s) height)), None)
       end.
Proof.
  intros Hge.
  assert (isIgnored s height = false) as Hig by (unfold isIgnored; lia).
  unfold CandidateVotes, Buckets, Bucket, BucketsByIndices, BucketsByCandidate,
    TotalBucketCount, BucketTypes.
  rewrite Hig. repeat split.
  destruct (cache_ActiveBucketTypes (cache s) height) as [m [e|]]; reflexivity.
Qed.

(** X10.  [Start] on a ready indexer does nothing.  When [Start] returns
    nil the indexer is ready, so a second [Start] returns nil and neither
    starts the store nor loads the cache again; when [Start] returns an
    error the indexer was not ready and is not ready afterwards. *)
Theorem Start_once (s : Service S Cache) :
  (ready s = true -> Start s = (s, None))
  /\ (snd (Start s) = None ->
      ready (fst (Start s)) = true /\ Start (fst (Start s)) = (fst (Start s), None))
  /\ (forall e, snd (Start s) = Some e ->
      ready s = false /\ ready (fst (Start s)) = false).
Proof.
  unfold Start, start, loadFromDB.
  destruct (ready s) eqn:Hr.
  - simpl. repeat split; intros; rewrite ?Hr; try reflexivity; discriminate.
  - destruct (store_Start (kvstore (indexer s))) as [st [e|]]; simpl.
    + repeat split; intros; rewrite ?Hr; try reflexivity; discriminate.
    + destruct (cache_LoadFromDB (cache (indexer s)) st) as [c [e|]]; simpl;
        repeat split; intros; rewrite ?Hr; try reflexivity; discriminate.
Qed.

(** X11.  [Stop] that fails at the store keeps the cache and the
    readiness.  [Stop] that succeeds leaves a new, empty cache and a
    not-ready indexer, and a [Start] after it that succeeds loads the cache
    anew from the store: the cache is the new cache loaded from the store
    as [Start] left it. *)
Theorem Stop_discards_cache_Start_reloads (s : Service S Cache) :
  let s1 := fst (Stop s) in
  config (indexer s1) = config (indexer s)
  /\ (forall e, snd (Stop s) = Some e ->
      cache (indexer s1) = cache (indexer s) /\ ready s1 = ready s)
  /\ (snd (Stop s) = None ->
      ready s1 = false
      /\ cache (indexer s1) = newContractStakingCache (config (indexer s))
      /\ (snd (Start s1) = None ->
          cache (indexer (fst (Start s1)))
          = reloaded (config (indexer s)) (kvstore (indexer (fst (Start s1))))
          /\ ready (fst (Start s1)) = true)).
Proof.
  unfold Stop.
  destruct (store_Stop (kvstore (indexer s))) as [st [e|]]; simpl.
  - repeat split; try reflexivity; intros; discriminate.
  - split; [reflexivity|]. split; [intros; discriminate|]. intros _.
    split; [reflexivity|]. split; [reflexivity|].
    unfold Start, start, loadFromDB, reloaded. simpl.
    destruct (store_Start st) as [st' [e|]]; simpl; [discriminate|].
    destruct (cache_LoadFromDB (newContractStakingCache (config (indexer s))) st')
      as [c [e|]] eqn:Eload; simpl; [discriminate|].
    intros _. rewrite Eload. split; reflexivity.
Qed.

End IndexerMore.

Section IndexerRuns.
Import batch db fixtures fixtures_more.

(** A failed receipt with an event of the contract, then a successful one
    with an event of another contract and one of the watched contract:
    only the last is indexed. *)
Lemma PutBlock_handles_contract_events_in_order_witness :
  let blk :=
    block.mkBlock (sampleHeader 100 (repeat x00 32) (repeat x01 32)) []
      [block.mkReceipt 0 [stakeLog x09];
       block.mkReceipt ReceiptStatus_Success
         [block.mkLog "io1other" [x08]; stakeLog x07]] None in
  indexing.relevant_logs indexerAt100 (block.Receipts blk) = [stakeLog x07]
  /\ contractstaking.cache
       (fst (contractstaking.PutBlock heightNS heightKey indexerAt100 blk))
     = mkMemCache 100 [7].
Proof.
  intros blk. split; [reflexivity|].
  rewrite (PutBlock_handles_contract_events_in_order heightNS heightKey indexerAt100 blk)
    by reflexivity.
  reflexivity.
Defined.

Lemma PutBlock_without_events_still_commits_witness :
  let blk :=
    block.mkBlock (sampleHeader 100 (repeat x00 32) (repeat x01 32)) []
      [block.mkReceipt 0 [stakeLog x09]] None in
  contractstaking.cache
    (fst (contractstaking.PutBlock heightNS heightKey indexerAt100 blk))
  = mkMemCache 100 []
  /\ mem_get (contractstaking.kvstore
                (fst (contractstaking.PutBlock heightNS heightKey indexerAt100 blk)))
       heightNS heightKey
     = (Uint64ToBytesBigEndian 100, None).
Proof.
  intros blk.
  rewrite (PutBlock_without_events_still_commits heightNS heightKey indexerAt100 blk)
    by reflexivity.
  split; reflexivity.
Defined.

Lemma PutBlock_redelivery_is_noop_witness :
  let blk := stakingBlock 100 [stakeLog x07] in
  let s' := fst (contractstaking.PutBlock heightNS heightKey indexerAt100 blk) in
  contractstaking.expectHeight s' = 101
  /\ contractstaking.PutBlock heightNS heightKey s' blk = (s', None).
Proof.
  intros blk s'.
  destruct (PutBlock_redelivery_is_noop heightNS heightKey indexerAt100 s' blk)
    as (_ & Hnext & Hagain).
  - reflexivity.
  - unfold is_uint64, MaxUint64. simpl. lia.
  - unfold MaxUint64. simpl. lia.
  - reflexivity.
  - reflexivity.
  - split; [exact Hnext|exact Hagain].
Defined.

Lemma accessors_read_cache_from_start_witness :
  contractstaking.Buckets indexerAt120 100 = ([7; 9], None)
  /\ contractstaking.BucketTypes indexerAt120 100 = (["30 days"], None).
Proof.
  assert (contractstaking.ContractDeployHeight (contractstaking.config indexerAt120) <= 100)
    as Hge by (simpl; lia).
  destruct (accessors_read_cache_from_start indexerAt120 100 Hge)
    as (_ & Hb & _ & _ & _ & _ & Ht).
  split; [rewrite Hb|rewrite Ht]; reflexivity.
Defined.

Example Start_loads_then_Stop_discards :
  let started := fst (indexing.Start stoppedService) in
  snd (indexing.Start stoppedService) = None
  /\ contractstaking.cache (indexing.indexer started) = mkMemCache 119 []
  /\ indexing.Start started = (started, None)
  /\ contractstaking.cache (indexing.indexer (fst (indexing.Stop started)))
     = mkMemCache 0 []
  /\ indexing.ready (fst (indexing.Stop started)) = false.
Proof. repeat split. Qed.

End IndexerRuns.

(* ===================================================================== *)
(** * The chain: validation, pause, and what a commit leaves alone *)
(* ===================================================================== *)

Section ChainMore.
Import blockchain.
Context {D : Type} `{BlockDAO D}.
Variable VerifyEIP1559Header :
  genesis.Genesis -> TipInfo.t -> block.Header -> option error.

(** X12.  A block of the right height (the tip's height plus one, or
    zero) whose previous hash is not the tip's hash is rejected with an
    error whose cause is [ErrInvalidBlock]; a block of height zero is
    exempt from the height check only, not from this one. *)
Theorem ValidateBlock_rejects_unlinked_block (bc : blockchain D) (blk : block.Block)
    (opts : list BlockValidationOption) (tipHeight : Z) (tip : TipInfo.t) :
  dao_Height (dao bc) = Ok tipHeight ->
  tipInfo bc tipHeight = Ok tip ->
  block.Height (block.header blk) = 0
  \/ block.Height (block.header blk) = add64 (TipInfo.Height tip) 1 ->
  block.PrevHash (block.header blk) <> TipInfo.Hash tip ->
  cause_is (snd (ValidateBlock VerifyEIP1559Header bc (Some blk) opts))
    blockchain_ErrInvalidBlock = true
  /\ fst (ValidateBlock VerifyEIP1559Header bc (Some blk) opts) = bc.
Proof.
  intros Hh Htip Hheight Hprev.
  unfold ValidateBlock. rewrite Hh, Htip.
  assert (negb (block.Height (block.header blk) =? 0)
          && negb (block.Height (block.header blk) =? add64 (TipInfo.Height tip) 1)
          = false) as ->.
  { destruct Hheight as [-> | ->].
    - reflexivity.
    - rewrite Z.eqb_refl. apply andb_false_r. }
  apply bytes_Equal_neq in Hprev. rewrite Hprev. simpl. split; reflexivity.
Qed.

(** The context [ValidateBlock] hands to the validator. *)
Lemma context_of_tip (bc : blockchain D) (ctx : Context) (h : Z) (tip : TipInfo.t) :
  tipInfo bc h = Ok tip ->
  context bc ctx h
  = Ok (mkContext (Some (BlockchainCtx.mk tip (ChainID bc) (EvmNetworkID bc)))
          (Some (genesis_ bc)) (blockCtx ctx)).
Proof. intros Htip. unfold context. now rewrite Htip. Qed.

(** X13.  For a block that passes every check of the chain itself (right
    height, linked to the tip, fee header verified when there is a base
    fee, signature, transaction root, a producer address), the result of
    [ValidateBlock] is the result of the configured validator, nil when
    there is none.  The validator is called on the block with the tip, the
    identifiers and the genesis of the chain and with a block context of
    the block's height, time, gas limit at that height, producer, base fee
    and excess blob gas, the sidecar check skipped when an option asks for
    it. *)
Theorem ValidateBlock_defers_to_validator (bc : blockchain D) (blk : block.Block)
    (opts : list BlockValidationOption) (tipHeight : Z) (tip : TipInfo.t)
    (producer : string) :
  let hdr := block.header blk in
  dao_Height (dao bc) = Ok tipHeight ->
  tipInfo bc tipHeight = Ok tip ->
  block.Height hdr = 0 \/ block.Height hdr = add64 (TipInfo.Height tip) 1 ->
  block.PrevHash hdr = TipInfo.Hash tip ->
  (block.BaseFee hdr = None \/ VerifyEIP1559Header (genesis_ bc) tip hdr = None) ->
  block.VerifySignature hdr = true ->
  block.VerifyTxRoot blk = None ->
  block.ProducerAddress hdr = Some producer ->
  let skip :=
    skipSidecarValidation
      (fold_left (fun cfg opt => opt cfg) opts (mkBlockValidationCfg false)) in
  let ctx :=
    mkContext (Some (BlockchainCtx.mk tip (ChainID bc) (EvmNetworkID bc)))
      (Some (genesis_ bc))
      (Some (BlockCtx.mk (block.Height hdr) (block.Timestamp hdr)
               (genesis.BlockGasLimitByHeight (genesis_ bc) (block.Height hdr))
               (Some producer) (block.BaseFee hdr) (block.ExcessBlobGas hdr) skip)) in
  ValidateBlock VerifyEIP1559Header bc (Some blk) opts
  = (bc, match blockValidator bc with
         | None => None
         | Some validate => validate ctx blk
         end).
Proof.
  intros hdr Hh Htip Hheight Hprev Hfee Hsig Hroot Hprod skip ctx.
  unfold ValidateBlock. fold hdr. rewrite Hh, Htip.
  assert (negb (block.Height hdr =? 0)
          && negb (block.Height hdr =? add64 (TipInfo.Height tip) 1) = false) as ->.
  { destruct Hheight as [-> | ->].
    - reflexivity.
    - rewrite Z.eqb_refl. apply andb_false_r. }
  rewrite Hprev, bytes_Equal_refl. simpl.
  assert (match block.BaseFee hdr with
          | Some _ => VerifyEIP1559Header (genesis_ bc) tip hdr
          | None => None
          end = None) as ->.
  { destruct Hfee as [-> | Hv]; [reflexivity|]. now destruct (block.BaseFee hdr). }
  rewrite Hsig, Hroot, Hprod. simpl.
  rewrite (context_of_tip _ _ _ _ Htip). simpl.
  destruct (blockValidator bc); reflexivity.
Qed.

Lemma commitBlock_ignores_pause (bc : blockchain D) (blk : block.Block) (p : bool) :
  commitBlock (Pause bc p) blk
  = (Pause (fst (commitBlock bc blk)) p, snd (commitBlock bc blk)).
Proof.
  unfold commitBlock, context, tipInfo, Pause, emitToSubscribers, with_pubSubManager,
    with_dao. simpl.
  destruct (dao_Height (dao bc)) as [tipHeight|]; [|reflexivity].
  destruct (tipHeight =? 0).
  - destruct (dao_PutBlock (dao bc) _ blk) as [d err].
    destruct (errors_Cause err) as [[s| |]|]; try destruct s; simpl; try reflexivity.
    destruct (pubSubManager bc); reflexivity.
  - destruct (dao_HeaderByHeight (dao bc) tipHeight); [|reflexivity].
    destruct (dao_PutBlock (dao bc) _ blk) as [d err].
    destruct (errors_Cause err) as [[s| |]|]; try destruct s; simpl; try reflexivity.
    destruct (pubSubManager bc); reflexivity.
Qed.

(** X14.  On a paused chain [CommitBlock] returns an error whose cause is
    [ErrPaused] and leaves the chain, the archive included, as it is,
    without asking the archive anything.  Resuming gives back the commit of
    the chain that was never paused: the same result and the same state. *)
Theorem Pause_gates_CommitBlock (bc : blockchain D) (blk : block.Block) :
  (exists msg,
      CommitBlock (Pause bc true) blk
      = (Pause bc true, Some (errors_Wrap (errors_New blockchain_ErrPaused) msg)))
  /\ CommitBlock (Pause (Pause bc true) false) blk
     = (Pause (fst (commitBlock bc blk)) false, snd (commitBlock bc blk))
  /\ (pause bc = false ->
      CommitBlock (Pause (Pause bc true) false) blk = CommitBlock bc blk).
Proof.
  split; [eexists; reflexivity|].
  assert (CommitBlock (Pause (Pause bc true) false) blk
          = (Pause (fst (commitBlock bc blk)) false, snd (commitBlock bc blk))) as Hres
    by (unfold CommitBlock; simpl; apply (commitBlock_ignores_pause bc blk false)).
  split; [exact Hres|].
  intros Hp. rewrite Hres. unfold CommitBlock. rewrite Hp.
  assert (forall b : blockchain D, pause b = false -> Pause b false = b) as Hid
    by (intros [d c g v ps p]; simpl; intros ->; reflexivity).
  assert (pause (fst (commitBlock bc blk)) = false) as Hp'.
  { pose proof (commitBlock_ignores_pause bc blk (pause bc)) as Hc.
    assert (Pause bc (pause bc) = bc) as Hsame by (destruct bc; reflexivity).
    rewrite Hsame in Hc. rewrite Hc at 1. simpl. exact Hp. }
  rewrite (Hid _ Hp'). now destruct (commitBlock bc blk).
Qed.

(** X15.  [CommitBlock] never changes the configuration, the genesis, the
    validator, the pause flag or the list of subscribers, and the archive
    after it is either the archive before it or the one the archive's
    [PutBlock] left for this block, called once with the context of the
    current tip. *)
Theorem CommitBlock_changes_archive_through_PutBlock_only (bc : blockchain D)
    (blk : block.Block) :
  let bc' := fst (CommitBlock bc blk) in
  config bc' = config bc
  /\ genesis_ bc' = genesis_ bc
  /\ blockValidator bc' = blockValidator bc
  /\ pause bc' = pause bc
  /\ subscribers bc' = subscribers bc
  /\ (dao bc' = dao bc
      \/ exists tipHeight ctx,
           pause bc = false
           /\ dao_Height (dao bc) = Ok tipHeight
           /\ context bc context_Background tipHeight = Ok ctx
           /\ dao bc' = fst (dao_PutBlock (dao bc) (commit_context bc ctx blk) blk)).
Proof.
  unfold CommitBlock. destruct (pause bc) eqn:Hp.
  - simpl. repeat split; auto.
  - unfold commitBlock.
    destruct (dao_Height (dao bc)) as [tipHeight|] eqn:Hh; [|simpl; repeat split; auto].
    destruct (context bc context_Background tipHeight) as [ctx|] eqn:Hctx;
      [|simpl; repeat split; auto].
    fold (commit_context bc ctx blk).
    destruct (dao_PutBlock (dao bc) (commit_context bc ctx blk) blk) as [d err] eqn:Hput.
    assert (d = fst (dao_PutBlock (dao bc) (commit_context bc ctx blk) blk)) as Hd
      by (rewrite Hput; reflexivity).
    destruct (errors_Cause err) as [[s| |]|]; try destruct s; simpl;
      unfold emitToSubscribers, subscribers, with_pubSubManager, with_dao; simpl;
      repeat match goal with |- _ /\ _ => split end;
      try reflexivity; try assumption;
      try (destruct (pubSubManager bc); solve [reflexivity | assumption]);
      right; exists tipHeight, ctx; repeat split; auto;
      destruct (pubSubManager bc); assumption.
Qed.

End ChainMore.

(* ===================================================================== *)
(** * The chain: blocks per producer *)
(* ===================================================================== *)

Section ProductivityFacts.
Import blockchain chain_queries.
Context {D : Type} `{BlockDAO D}.

Lemma counters_get_incr (m : counters) (k p : string) :
  counters_get (counters_incr m k) p
  = if String.eqb k p then add64 (counters_get m k) 1 else counters_get m p.
Proof.
  induction m as [|[k' v] m IH]; simpl.
  - reflexivity.
  - destruct (String.eqb_spec k' k) as [->|Hne]; simpl.
    + destruct (String.eqb k p); reflexivity.
    + rewrite IH. destruct (String.eqb_spec k' p) as [->|Hne'].
      * destruct (String.eqb_spec k p) as [->|_]; [congruence|reflexivity].
      * reflexivity.
Qed.

Lemma heights_succ (i : Z) (n : nat) :
  heights i (Datatypes.S n) = i :: heights (i + 1) n.
Proof.
  unfold heights. simpl. rewrite Z.add_0_r. f_equal.
  rewrite <- seq_shift, map_map. apply map_ext. intros k. lia.
Qed.

Lemma produced_in_cons (bc : blockchain D) (h : Z) (hs : list Z) (p : string) :
  produced_in bc (h :: hs) p
  = (match producer_at bc h with
     | Some q => if String.eqb q p then 1 else 0
     | None => 0
     end) + produced_in bc hs p.
Proof.
  unfold produced_in. cbn [filter].
  destruct (producer_at bc h) as [q|]; [|reflexivity].
  destruct (String.eqb q p); [|reflexivity].
  cbn [List.length]. lia.
Qed.

Lemma Productivity_loop_counts (bc : blockchain D) (endHeight : Z) (n : nat) :
  forall (fuel : nat) (i : Z) (stats : counters) (bound : Z),
    (n < fuel)%nat ->
    0 <= i ->
    endHeight < MaxUint64 ->
    Z.of_nat n = Z.max 0 (endHeight - i + 1) ->
    (forall h, i <= h <= endHeight -> producer_at bc h <> None) ->
    0 <= bound -> bound + Z.of_nat n <= MaxUint64 ->
    (forall p, 0 <= counters_get stats p <= bound) ->
    exists st,
      Productivity_loop fuel bc i endHeight stats = Some (Returns (Ok st))
      /\ forall p, counters_get st p
                   = counters_get stats p + produced_in bc (heights i n) p.
Proof.
  induction n as [|n IH]; intros fuel i stats bound Hfuel Hi Hend Hn Hprod Hb Hbn Hstats;
    (destruct fuel as [|fuel]; [lia|]); simpl.
  - assert ((i <=? endHeight) = false) as -> by lia.
    exists stats. split; [reflexivity|]. intros p. unfold produced_in. simpl. lia.
  - assert ((i <=? endHeight) = true) as -> by lia.
    assert (producer_at bc i <> None) as Hp by (apply Hprod; lia).
    unfold producer_at in Hp.
    destruct (BlockHeaderByHeight bc i) as [header|] eqn:Hhdr; [|congruence].
    destruct (block.ProducerAddress header) as [producer|] eqn:Haddr; [|congruence].
    assert (add64 i 1 = i + 1) as ->
      by (apply add64_succ; unfold is_uint64; lia).
    destruct (IH fuel (i + 1) (counters_incr stats producer) (bound + 1))
      as [st [Hrun Hget]]; try lia.
    + intros h Hh. apply Hprod. lia.
    + intros p. rewrite counters_get_incr. specialize (Hstats p) as Hp1.
      specialize (Hstats producer) as Hp2.
      destruct (String.eqb producer p); [|lia].
      rewrite add64_succ by (unfold is_uint64; lia). lia.
    + exists st. split; [exact Hrun|]. intros p.
      rewrite Hget, heights_succ, produced_in_cons, counters_get_incr.
      unfold producer_at. rewrite Hhdr, Haddr.
      specialize (Hstats producer).
      destruct (String.eqb_spec producer p) as [->|Hne]; [|lia].
      rewrite add64_succ by (unfold is_uint64; lia). lia.
Qed.

(** X16.  For a range that ends below [MaxUint64] and whose blocks the
    archive has, each with a producer address, [Productivity] returns
    after one round per height (the fuel that suffices is the number of
    heights plus one) with a nil error and a map that gives every address
    the number of heights of the range whose block it produced, zero for
    an address that produced none; an empty range, start above end, gives
    the empty map. *)
Theorem Productivity_counts_blocks_per_producer (bc : blockchain D)
    (startHeight endHeight : Z) (fuel : nat) :
  let n := Z.to_nat (endHeight - startHeight + 1) in
  is_uint64 startHeight ->
  endHeight < MaxUint64 ->
  (forall h, startHeight <= h <= endHeight -> producer_at bc h <> None) ->
  (n < fuel)%nat ->
  exists st,
    Productivity fuel bc startHeight endHeight = Some (Returns (Ok st))
    /\ (forall p, counters_get st p = produced_in bc (heights startHeight n) p)
    /\ (endHeight < startHeight -> st = []).
Proof.
  intros n Hs He Hprod Hfuel. unfold is_uint64 in Hs.
  destruct (Productivity_loop_counts bc endHeight n fuel startHeight [] 0)
    as [st [Hrun Hget]]; try lia; try assumption.
  - simpl. intros p. lia.
  - exists st. split; [exact Hrun|]. split; [intros p; rewrite Hget; reflexivity|].
    intros Hempty. unfold Productivity in Hrun.
    destruct fuel as [|fuel]; [lia|]. simpl in Hrun.
    assert ((startHeight <=? endHeight) = false) as Hle by lia.
    rewrite Hle in Hrun. congruence.
Qed.

Lemma Productivity_loop_error (bc : blockchain D) (endHeight h0 : Z) (e : error)
    (m : nat) :
  forall (fuel : nat) (i : Z) (stats : counters),
    (m < fuel)%nat ->
    0 <= i -> Z.of_nat m = h0 - i ->
    h0 <= endHeight -> endHeight <= MaxUint64 ->
    (forall h, i <= h < h0 -> producer_at bc h <> None) ->
    BlockHeaderByHeight bc h0 = Err e ->
    Productivity_loop fuel bc i endHeight stats = Some (Returns (Err e)).
Proof.
  induction m as [|m IH]; intros fuel i stats Hfuel Hi Hm Hh0 Hend Hprod Herr;
    (destruct fuel as [|fuel]; [lia|]); simpl.
  - assert (i = h0) as -> by lia.
    assert ((h0 <=? endHeight) = true) as -> by lia.
    rewrite Herr. reflexivity.
  - assert ((i <=? endHeight) = true) as -> by lia.
    assert (producer_at bc i <> None) as Hp by (apply Hprod; lia).
    unfold producer_at in Hp.
    destruct (BlockHeaderByHeight bc i) as [header|]; [|congruence].
    destruct (block.ProducerAddress header) as [producer|]; [|congruence].
    assert (add64 i 1 = i + 1) as ->
      by (apply add64_succ; unfold is_uint64; lia).
    apply IH; try lia; try assumption.
    intros h Hh. apply Hprod. lia.
Qed.

(** X17.  When the archive fails for a height of the range and has the
    blocks below it, [Productivity] returns the archive's error for the
    first such height and no map, after one round per height up to that
    one. *)
Theorem Productivity_returns_first_archive_error (bc : blockchain D)
    (startHeight endHeight h0 : Z) (e : error) (fuel : nat) :
  is_uint64 startHeight -> is_uint64 endHeight ->
  startHeight <= h0 <= endHeight ->
  (forall h, startHeight <= h < h0 -> producer_at bc h <> None) ->
  BlockHeaderByHeight bc h0 = Err e ->
  (Z.to_nat (h0 - startHeight) < fuel)%nat ->
  Productivity fuel bc startHeight endHeight = Some (Returns (Err e)).
Proof.
  intros Hs He Hh0 Hprod Herr Hfuel. unfold is_uint64 in *.
  apply (Productivity_loop_error bc endHeight h0 e (Z.to_nat (h0 - startHeight)));
    try lia; assumption.
Qed.

Lemma add64_uint64 (a b : Z) : is_uint64 (add64 a b).
Proof.
  unfold is_uint64, add64, MaxUint64.
  pose proof (Z.mod_pos_bound (a + b) (2 ^ 64) ltac:(lia)). lia.
Qed.

(** X18.  With the end height [MaxUint64] the loop condition of
    [Productivity] holds for every [uint64] and the counter wraps to zero:
    over an archive that has a block with a producer at every height the
    call does not return, whatever the number of rounds it is given. *)
Theorem Productivity_to_MaxUint64_never_returns (bc : blockchain D) (startHeight : Z) :
  is_uint64 startHeight ->
  (forall h, is_uint64 h -> producer_at bc h <> None) ->
  forall fuel : nat, Productivity fuel bc startHeight MaxUint64 = None.
Proof.
  intros Hs Hprod fuel. unfold Productivity. generalize (@nil (string * Z)).
  revert startHeight Hs.
  induction fuel as [|fuel IH]; intros i Hi stats; simpl; [reflexivity|].
  assert ((i <=? MaxUint64) = true) as -> by (unfold is_uint64 in Hi; lia).
  pose proof (Hprod i Hi) as Hp. unfold producer_at in Hp.
  destruct (BlockHeaderByHeight bc i) as [header|]; [|congruence].
  destruct (block.ProducerAddress header) as [producer|]; [|congruence].
  apply IH. apply add64_uint64.
Qed.

End ProductivityFacts.

Section ChainMoreRuns.
Import blockchain chain_queries fixtures fixtures_more.

Lemma ValidateBlock_rejects_unlinked_block_witness :
  let unlinked :=
    block.mkBlock (sampleHeader 2 (repeat xee 32) (repeat xb2 32)) [] [] None in
  cause_is (snd (ValidateBlock noFeeCheck chainAtBlock1 (Some unlinked) []))
    blockchain_ErrInvalidBlock = true.
Proof.
  intros unlinked.
  destruct (ValidateBlock_rejects_unlinked_block noFeeCheck chainAtBlock1 unlinked [] 1
              (TipInfo.mk 1 0 (repeat xb1 32) 1546329605 None 0 0)) as [Hc _].
  - reflexivity.
  - reflexivity.
  - right. reflexivity.
  - discriminate.
  - exact Hc.
Defined.

Lemma ValidateBlock_defers_to_validator_witness :
  let block2 :=
    block.mkBlock (sampleHeader 2 (repeat xb1 32) (repeat xb2 32)) [] [] None in
  ValidateBlock noFeeCheck chainAtBlock1 (Some block2) [SkipSidecarValidationOption]
  = (chainAtBlock1, None).
Proof.
  intros block2.
  rewrite (ValidateBlock_defers_to_validator noFeeCheck chainAtBlock1 block2
             [SkipSidecarValidationOption] 1
             (TipInfo.mk 1 0 (repeat xb1 32) 1546329605 None 0 0) "io1producer");
    try reflexivity.
  - right. reflexivity.
  - left. reflexivity.
Defined.

Lemma Productivity_counts_blocks_per_producer_witness :
  exists st,
    Productivity 7 endlessChain 3 8 = Some (Returns (Ok st))
    /\ counters_get st "io1even" = 3
    /\ counters_get st "io1odd" = 3
    /\ counters_get st "io1nobody" = 0.
Proof.
  destruct (Productivity_counts_blocks_per_producer endlessChain 3 8 7)
    as (st & Hrun & Hget & _).
  - unfold is_uint64, MaxUint64. lia.
  - unfold MaxUint64. lia.
  - intros h _. discriminate.
  - simpl. lia.
  - exists st. split; [exact Hrun|]. rewrite !Hget. repeat split.
Defined.

Lemma Productivity_returns_first_archive_error_witness :
  Productivity 5 chainAtBlock1 1 4 = Some (Returns (Err (errors_New db_ErrNotExist))).
Proof.
  apply (Productivity_returns_first_archive_error chainAtBlock1 1 4 2).
  - unfold is_uint64, MaxUint64. lia.
  - unfold is_uint64, MaxUint64. lia.
  - lia.
  - intros h Hh. assert (h = 1) as -> by lia. discriminate.
  - reflexivity.
  - simpl. lia.
Defined.

Lemma Productivity_to_MaxUint64_never_returns_witness :
  Productivity 1000 endlessChain (MaxUint64 - 3) MaxUint64 = None.
Proof.
  apply (Productivity_to_MaxUint64_never_returns endlessChain (MaxUint64 - 3)).
  - unfold is_uint64, MaxUint64. lia.
  - intros h _. discriminate.
Defined.

End ChainMoreRuns.

(* ===================================================================== *)
(** * The configuration: producer keys *)
(* ===================================================================== *)

Section StringFacts.
Import strings.

Lemma Split_nonempty (s : string) (sep : ascii) : Split s sep <> [].
Proof.
  destruct s as [|c s]; simpl; [discriminate|].
  destruct (Ascii.eqb c sep); [discriminate|].
  destruct (Split s sep); discriminate.
Qed.

Lemma Split_length (s : string) (sep : ascii) :
  List.length (Split s sep)
  = Datatypes.S (List.length (filter (fun c => Ascii.eqb c sep) (list_ascii_of_string s))).
Proof.
  induction s as [|c s IH]; simpl; [reflexivity|].
  destruct (Ascii.eqb c sep); simpl; [now rewrite IH|].
  destruct (Split s sep) as [|piece pieces] eqn:Es; [discriminate IH|exact IH].
Qed.

Lemma Split_free (s : string) (sep : ascii) :
  free_of (String sep EmptyString) s -> Split s sep = [s].
Proof.
  unfold free_of, in_cutset. induction s as [|c s IH]; simpl; [reflexivity|].
  intros Hfree. inversion Hfree as [|? ? Hc Hs]; subst.
  simpl in Hc. rewrite orb_false_r in Hc. rewrite Hc, (IH Hs). reflexivity.
Qed.

Lemma Split_at_sep (p0 p1 : string) (sep : ascii) :
  free_of (String sep EmptyString) p0 ->
  Split (p0 ++ String sep p1)%string sep = p0 :: Split p1 sep.
Proof.
  unfold free_of, in_cutset. induction p0 as [|c p0 IH]; simpl.
  - intros _. now rewrite Ascii.eqb_refl.
  - intros Hfree. inversion Hfree as [|? ? Hc Hs]; subst.
    simpl in Hc. rewrite orb_false_r in Hc. rewrite Hc, (IH Hs). reflexivity.
Qed.

Lemma TrimRight_closing (s : string) :
  free_of "[]" s -> TrimRight (s ++ "]")%string "[]" = s.
Proof.
  unfold free_of. induction s as [|c s IH]; simpl; [reflexivity|].
  intros Hfree. inversion Hfree as [|? ? Hc Hs]; subst.
  rewrite (IH Hs). rewrite Hc. now destruct s.
Qed.

Lemma Trim_brackets (s : string) :
  free_of "[]" s -> Trim ("[" ++ s ++ "]")%string "[]" = s.
Proof.
  intros Hfree. unfold Trim. simpl.
  destruct s as [|c s]; [reflexivity|].
  pose proof Hfree as Hfree'. unfold free_of in Hfree'.
  inversion Hfree' as [|? ? Hc Hs]; subst.
  cbn [append TrimLeft]. rewrite Hc.
  apply (TrimRight_closing (String c s) Hfree).
Qed.

Lemma free_of_app (cutset s t : string) :
  free_of cutset s -> free_of cutset t -> free_of cutset (s ++ t)%string.
Proof.
  unfold free_of. induction s as [|c s IH]; simpl; [auto|].
  intros Hs Ht. inversion Hs; subst. constructor; auto.
Qed.

Lemma free_of_weaken (cutset cutset' s : string) :
  (forall c, in_cutset cutset c = false -> in_cutset cutset' c = false) ->
  free_of cutset s -> free_of cutset' s.
Proof.
  intros Hsub. unfold free_of. apply Forall_impl. exact Hsub.
Qed.

(** A printed number is made of digits: it has no bracket, colon or sign. *)
Lemma string_of_uint_free (d : Decimal.uint) :
  free_of "[]:+-" (NilEmpty.string_of_uint d).
Proof.
  unfold free_of. induction d; simpl; constructor; try reflexivity; assumption.
Qed.

Lemma fmt_d_free (z : Z) : free_of "[]:+-" (fmt_d z).
Proof. apply string_of_uint_free. Qed.

Lemma fmt_d_nonempty (z : Z) : fmt_d z <> EmptyString.
Proof.
  unfold fmt_d. destruct (Z.to_N z) as [|p]; simpl; [discriminate|].
  pose proof (DecimalPos.Unsigned.to_uint_nonnil p) as Hnn.
  destruct (Pos.to_uint p); simpl; congruence.
Qed.

Lemma Atoi_unsigned (c : ascii) (s : string) :
  c <> "-"%char -> c <> "+"%char ->
  strconv_Atoi (String c s) =
  match NilEmpty.uint_of_string (String c s) with
  | None =>
      Err (errors_Errorf
             ("strconv.Atoi: parsing " ++ String c s ++ ": invalid syntax")%string)
  | Some d =>
      if (- 2 ^ 63 <=? Z.of_N (N.of_uint d)) && (Z.of_N (N.of_uint d) <=? 2 ^ 63 - 1)
      then Ok (Z.of_N (N.of_uint d))
      else Err (errors_Errorf
                  ("strconv.Atoi: parsing " ++ String c s ++ ": value out of range")%string)
  end.
Proof.
  intros Hminus Hplus. unfold strconv_Atoi.
  destruct c as [[] [] [] [] [] [] [] []]; try reflexivity; congruence.
Qed.

(** The decimal text of a number within [int64] parses back to it. *)
Lemma Atoi_fmt_d (z : Z) :
  0 <= z < 2 ^ 63 -> strconv_Atoi (fmt_d z) = Ok z.
Proof.
  intros Hz.
  pose proof (fmt_d_nonempty z) as Hne. pose proof (fmt_d_free z) as Hfree.
  destruct (fmt_d z) as [|c s] eqn:Ef; [congruence|].
  unfold free_of in Hfree. inversion Hfree as [|? ? Hc _]; subst.
  rewrite Atoi_unsigned.
  - rewrite <- Ef. unfold fmt_d. rewrite NilEmpty.usu, DecimalN.Unsigned.of_to, Z2N.id by lia.
    assert ((- 2 ^ 63 <=? z) && (z <=? 2 ^ 63 - 1) = true) as -> by lia.
    reflexivity.
  - intros ->. discriminate Hc.
  - intros ->. discriminate Hc.
Qed.

End StringFacts.

Section ConfigFacts.
Import strings chain_config.
Context {K : Type} `{Crypto K}.

Lemma decode_keys_spec (cfg : Config) (pks : list string) :
  forall (acc ks : list K),
    decode_keys cfg pks acc = Returns ks
    <-> exists new, ks = acc ++ new /\ Forall2 (decodes_to cfg) pks new.
Proof.
  induction pks as [|pk pks IH]; intros acc ks; simpl.
  - split.
    + intros Heq. injection Heq as <-. exists []. rewrite app_nil_r. auto.
    + intros [new [-> Hall]]. inversion Hall. now rewrite app_nil_r.
  - split.
    + destruct (HexStringToPrivateKey pk) as [sk|] eqn:Hdec; [|discriminate].
      destruct (whitelistSignatureScheme cfg sk) eqn:Hw; simpl; [|discriminate].
      intros Hrun. apply IH in Hrun as [new [-> Hall]].
      exists (sk :: new). rewrite <- app_assoc. split; [reflexivity|].
      constructor; [split; assumption|assumption].
    + intros [new [-> Hall]]. inversion Hall as [|? sk ? new' [Hdec Hw] Hall']; subst.
      rewrite Hdec, Hw. simpl. apply IH. exists new'.
      rewrite <- app_assoc. auto.
Qed.

Lemma decode_keys_all (cfg : Config) (pks : list string) (ks : list K) :
  decode_keys cfg pks [] = Returns ks <-> Forall2 (decodes_to cfg) pks ks.
Proof.
  rewrite decode_keys_spec. simpl. split.
  - intros [new [-> Hall]]. exact Hall.
  - intros Hall. exists ks. auto.
Qed.

Lemma Split_guard (s : string) (sep : ascii) :
  (List.length (Split s sep) =? 0)%nat = false.
Proof. rewrite Split_length. reflexivity. Qed.

(** X19.  Without a range, [ProducerPrivateKeys] returns exactly one key
    per comma-separated piece of [ProducerPrivKey], in order, each the
    decoded piece and whitelisted, and panics when a piece does not decode
    or is not whitelisted.  The list is never empty and the guard on an
    empty split never fires: the empty string is one empty piece, which is
    handed to the decoder. *)
Theorem ProducerPrivateKeys_one_key_per_piece (cfg : Config) :
  ProducerPrivKeyRange cfg = EmptyString ->
  let pieces := Split (ProducerPrivKey cfg) ","%char in
  (forall ks, ProducerPrivateKeys cfg = Returns ks <-> Forall2 (decodes_to cfg) pieces ks)
  /\ ((forall ks, ~ Forall2 (decodes_to cfg) pieces ks) -> ProducerPrivateKeys cfg = Panics)
  /\ (forall ks,
         ProducerPrivateKeys cfg = Returns ks ->
         List.length ks
         = Datatypes.S
             (List.length
                (filter (fun c => Ascii.eqb c ","%char)
                   (list_ascii_of_string (ProducerPrivKey cfg)))))
  /\ (ProducerPrivKey cfg = EmptyString -> pieces = [EmptyString]).
Proof.
  intros Hrange pieces.
  assert (ProducerPrivateKeys cfg = decode_keys cfg pieces []) as Hrun.
  { unfold ProducerPrivateKeys. fold pieces. unfold pieces at 1.
    rewrite Split_guard, Hrange. simpl.
    destruct (decode_keys cfg pieces []); reflexivity. }
  split; [|split; [|split]].
  - intros ks. rewrite Hrun. apply decode_keys_all.
  - intros Hnone. rewrite Hrun.
    destruct (decode_keys cfg pieces []) as [ks|] eqn:Hd; [|reflexivity].
    apply decode_keys_all in Hd. now apply Hnone in Hd.
  - intros ks Hks. rewrite Hrun in Hks. apply decode_keys_all in Hks.
    apply Forall2_length in Hks. rewrite <- Hks. apply Split_length.
  - intros Hempty. unfold pieces. rewrite Hempty. reflexivity.
Qed.

Lemma In_slice {A : Type} (l : list A) (start end_ : Z) (x : A) :
  In x (slice l start end_) -> In x l.
Proof.
  unfold slice. intros Hin.
  rewrite <- (firstn_skipn (Z.to_nat start) l). apply in_or_app. right.
  rewrite <- (firstn_skipn (Z.to_nat (end_ - start)) (skipn (Z.to_nat start) l)).
  apply in_or_app. now left.
Qed.

Lemma slice_all {A : Type} (l : list A) :
  slice l 0 (Z.of_nat (List.length l)) = l.
Proof.
  unfold slice. simpl. rewrite Z.sub_0_r, Nat2Z.id. apply firstn_all.
Qed.

Lemma slice_length {A : Type} (l : list A) (start end_ : Z) :
  0 <= start <= end_ -> end_ <= Z.of_nat (List.length l) ->
  Z.of_nat (List.length (slice l start end_)) = end_ - start.
Proof.
  intros Hse Hl. unfold slice. rewrite length_firstn, length_skipn. lia.
Qed.

(** X20.  Whatever the range, the keys [ProducerPrivateKeys] returns are a
    contiguous run [start, end) of the keys decoded from the pieces of
    [ProducerPrivKey], every piece having decoded to a whitelisted key:
    no key is returned that is not configured, not decodable or not
    whitelisted, and none is returned out of order. *)
Theorem ProducerPrivateKeys_returns_run_of_decoded_keys (cfg : Config) (ks : list K) :
  ProducerPrivateKeys cfg = Returns ks ->
  exists (all : list K) (start end_ : Z),
    Forall2 (decodes_to cfg) (Split (ProducerPrivKey cfg) ","%char) all
    /\ 0 <= start <= end_ /\ end_ <= Z.of_nat (List.length all)
    /\ ks = slice all start end_
    /\ Z.of_nat (List.length ks) = end_ - start
    /\ Forall (fun sk => whitelistSignatureScheme cfg sk = true) ks.
Proof.
  unfold ProducerPrivateKeys. rewrite Split_guard.
  destruct (decode_keys cfg (Split (ProducerPrivKey cfg) ",") []) as [all|] eqn:Hd;
    [|discriminate].
  apply decode_keys_all in Hd.
  assert (Forall (fun sk => whitelistSignatureScheme cfg sk = true) all) as Hw.
  { clear -Hd. induction Hd as [|pk sk pks all [_ Hw] _ IH]; constructor; assumption. }
  assert (forall start end_,
             0 <= start <= end_ -> end_ <= Z.of_nat (List.length all) ->
             exists all' start' end',
               Forall2 (decodes_to cfg) (Split (ProducerPrivKey cfg) ",") all'
               /\ 0 <= start' <= end' /\ end' <= Z.of_nat (List.length all')
               /\ slice all start end_ = slice all' start' end'
               /\ Z.of_nat (List.length (slice all start end_)) = end' - start'
               /\ Forall (fun sk => whitelistSignatureScheme cfg sk = true)
                    (slice all start end_)) as Hslice.
  { intros start end_ Hse Hl. exists all, start, end_.
    repeat split; try assumption; try lia.
    - now apply slice_length.
    - apply Forall_forall. intros sk Hin. apply In_slice in Hin.
      revert sk Hin. now apply Forall_forall. }
  destruct (String.eqb (ProducerPrivKeyRange cfg) EmptyString).
  - intros Heq. injection Heq as <-.
    pose proof (Hslice 0 (Z.of_nat (List.length all)) ltac:(lia) ltac:(lia)) as Hall.
    rewrite slice_all in Hall. exact Hall.
  - destruct (Split (Trim (ProducerPrivKeyRange cfg) "[]") ":")
      as [|part0 [|part1 [|part2 parts]]]; try discriminate.
    destruct (if String.eqb part0 EmptyString then Ok 0 else strconv_Atoi part0)
      as [start|]; [|discriminate].
    destruct (if String.eqb part1 EmptyString then Ok (Z.of_nat (List.length all))
              else strconv_Atoi part1) as [end_|]; [|discriminate].
    destruct ((start <? 0) || (end_ >? Z.of_nat (List.length all)) || (start >? end_))
      eqn:Hcheck; [discriminate|].
    intros Heq. injection Heq as <-. apply Hslice; lia.
Qed.

Lemma range_parts (a b : option Z) :
  Split (Trim (range_text a b) "[]") ":"%char = [range_side a; range_side b].
Proof.
  assert (forall side, free_of "[]:+-" (range_side side)) as Hside
    by (intros [z|]; [apply fmt_d_free|constructor]).
  assert (forall side, free_of "[]" (range_side side)) as Hbr.
  { intros side. apply (free_of_weaken "[]:+-"); [|apply Hside].
    intros c. unfold in_cutset. simpl. rewrite !orb_false_r.
    intros Hc. repeat (apply orb_false_elim in Hc as [? Hc]). now rewrite H0, H1. }
  assert (forall side, free_of ":" (range_side side)) as Hcolon.
  { intros side. apply (free_of_weaken "[]:+-"); [|apply Hside].
    intros c. unfold in_cutset. simpl. rewrite !orb_false_r.
    intros Hc. repeat (apply orb_false_elim in Hc as [? Hc]). assumption. }
  assert (range_text a b
          = ("[" ++ (range_side a ++ ":" ++ range_side b) ++ "]")%string) as ->.
  { unfold range_text. f_equal.
    induction (range_side a) as [|c s IH]; [reflexivity|].
    cbn [append]. f_equal. exact IH. }
  rewrite Trim_brackets.
  - change (range_side a ++ ":" ++ range_side b)%string
      with (range_side a ++ String ":"%char (range_side b))%string.
    rewrite Split_at_sep by apply Hcolon. rewrite Split_free by apply Hcolon.
    reflexivity.
  - apply free_of_app; [apply Hbr|].
    apply (free_of_app "[]" ":"); [repeat constructor|apply Hbr].
Qed.

(** X21.  A range written [[a:b]], with decimal numbers within [int64]
    and either side possibly left out (0 and the number of keys are then
    meant), selects the keys of indices a to b-1 when 0 <= a <= b <= the
    number of decoded keys, b - a of them, and panics when b exceeds the
    number of keys or a exceeds b. *)
Theorem ProducerPrivateKeys_range_selects_keys (cfg : Config) (all : list K)
    (a b : option Z) :
  let len := Z.of_nat (List.length all) in
  let start := match a with Some z => z | None => 0 end in
  let end_ := match b with Some z => z | None => len end in
  ProducerPrivKeyRange cfg = range_text a b ->
  decode_keys cfg (Split (ProducerPrivKey cfg) ","%char) [] = Returns all ->
  0 <= start < 2 ^ 63 -> 0 <= end_ < 2 ^ 63 ->
  ProducerPrivateKeys cfg
  = (if (end_ >? len) || (start >? end_) then Panics
     else Returns (slice all start end_))
  /\ (start <= end_ <= len ->
      Z.of_nat (List.length (slice all start end_)) = end_ - start).
Proof.
  intros len start end_ Hrange Hd Hstart Hend.
  split; [|intros Hse; apply slice_length; lia].
  unfold ProducerPrivateKeys. rewrite Split_guard, Hd, Hrange.
  assert (String.eqb (range_text a b) EmptyString = false) as -> by reflexivity.
  rewrite range_parts.
  assert ((if String.eqb (range_side a) EmptyString then Ok 0
           else strconv_Atoi (range_side a)) = Ok start) as ->.
  { subst start. destruct a as [z|]; simpl; [|reflexivity].
    pose proof (fmt_d_nonempty z) as Hne. apply String.eqb_neq in Hne.
    rewrite Hne. now apply Atoi_fmt_d. }
  assert ((if String.eqb (range_side b) EmptyString
           then Ok (Z.of_nat (List.length all))
           else strconv_Atoi (range_side b)) = Ok end_) as ->.
  { subst end_. destruct b as [z|]; simpl; [|reflexivity].
    pose proof (fmt_d_nonempty z) as Hne. apply String.eqb_neq in Hne.
    rewrite Hne. now apply Atoi_fmt_d. }
  fold len. assert ((start <? 0) = false) as -> by lia. reflexivity.
Qed.

(** X22.  A key is whitelisted exactly when its type is one of the two the
    switch knows and the name of that scheme is in [SignatureScheme]; a
    key of any other type is never whitelisted, not even when the list
    holds the empty string. *)
Theorem whitelistSignatureScheme_iff (cfg : Config) (sk : K) :
  whitelistSignatureScheme cfg sk = true
  <-> (EcdsaPrivateKey sk = ecdsa_PrivateKey /\ In SigP256k1 (SignatureScheme cfg))
      \/ (EcdsaPrivateKey sk = crypto_P256sm2PrvKey /\ In SigP256sm2 (SignatureScheme cfg)).
Proof.
  unfold whitelistSignatureScheme.
  assert (forall name, existsb (String.eqb name) (SignatureScheme cfg) = true
                       <-> In name (SignatureScheme cfg)) as Hin.
  { intros name. rewrite existsb_exists. split.
    - intros [e [He Heq]]. apply String.eqb_eq in Heq. now subst.
    - intros He. exists name. split; [assumption|apply String.eqb_refl]. }
  destruct (EcdsaPrivateKey sk); cbv beta iota zeta.
  - change (String.eqb SigP256k1 EmptyString) with false. cbv iota.
    rewrite Hin. split; [auto|]. intros [[_ Hi]|[Hc _]]; [exact Hi|discriminate].
  - change (String.eqb SigP256sm2 EmptyString) with false. cbv iota.
    rewrite Hin. split; [auto|]. intros [[Hc _]|[_ Hi]]; [discriminate|exact Hi].
  - change (String.eqb EmptyString EmptyString) with true. cbv iota.
    split; [discriminate|]. intros [[Hc _]|[Hc _]]; discriminate.
Qed.

Lemma addresses_of_spec (ks : list K) :
  forall (acc addrs : list string),
    addresses_of ks acc = Returns addrs
    <-> exists new, addrs = acc ++ new /\ map PublicKey_Address ks = map Some new.
Proof.
  induction ks as [|sk ks IH]; intros acc addrs; simpl.
  - split.
    + intros Heq. injection Heq as <-. exists []. now rewrite app_nil_r.
    + intros [new [-> Hmap]]. destruct new; [|discriminate]. now rewrite app_nil_r.
  - destruct (PublicKey_Address sk) as [addr|] eqn:Haddr.
    + rewrite IH. split.
      * intros [new [-> Hmap]]. exists (addr :: new).
        rewrite <- app_assoc. simpl. now rewrite Hmap.
      * intros [[|addr' new] [-> Hmap]]; [discriminate|].
        simpl in Hmap. injection Hmap as <- Hmap. exists new.
        rewrite <- app_assoc. auto.
    + split; [discriminate|].
      intros [[|addr' new] [_ Hmap]]; discriminate.
Qed.

(** X23.  [ProducerAddress] returns one address per key that
    [ProducerPrivateKeys] returns, in the same order, each the address of
    the key's public key; it panics when the keys panic or when a key has
    no address. *)
Theorem ProducerAddress_one_address_per_key (cfg : Config) (addrs : list string) :
  ProducerAddress cfg = Returns addrs
  <-> exists ks, ProducerPrivateKeys cfg = Returns ks
                 /\ map PublicKey_Address ks = map Some addrs.
Proof.
  unfold ProducerAddress.
  destruct (ProducerPrivateKeys cfg) as [ks|].
  - rewrite addresses_of_spec. simpl. split.
    + intros [new [-> Hmap]]. exists ks. auto.
    + intros [ks' [Heq Hmap]]. injection Heq as <-. exists addrs. auto.
  - split; [discriminate|]. intros [ks [Heq _]]. discriminate.
Qed.

End ConfigFacts.

Section ConfigRuns.
Import strings chain_config fixtures_more.

Lemma ProducerPrivateKeys_one_key_per_piece_witness :
  ProducerPrivateKeys (fourKeys "") = Returns ["k0"; "k1"; "s2"; "k3"]
  /\ ProducerPrivateKeys (mkConfig "" "" ["secp256k1"]) = Panics
  /\ ProducerPrivateKeys (mkConfig "k0,x1" "" ["secp256k1"]) = Panics.
Proof.
  split; [|split].
  - destruct (ProducerPrivateKeys_one_key_per_piece (fourKeys "") eq_refl) as [Hiff _].
    apply Hiff. repeat constructor.
  - destruct (ProducerPrivateKeys_one_key_per_piece (mkConfig "" "" ["secp256k1"]) eq_refl)
      as (_ & Hpanic & _).
    apply Hpanic. intros ks Hall.
    inversion Hall as [|? ? ? ? [Hdec _] _]; subst. discriminate Hdec.
  - destruct (ProducerPrivateKeys_one_key_per_piece (mkConfig "k0,x1" "" ["secp256k1"])
                eq_refl) as (_ & Hpanic & _).
    apply Hpanic. intros ks Hall.
    inversion Hall as [|? ? ? ? _ Hrest]; subst.
    inversion Hrest as [|? ? ? ? [Hdec Hw] _]; subst.
    simpl in Hdec. injection Hdec as <-. discriminate Hw.
Defined.

Lemma ProducerPrivateKeys_returns_run_of_decoded_keys_witness :
  ProducerPrivateKeys (fourKeys "1:3") = Returns ["k1"; "s2"]
  /\ Forall (fun sk => whitelistSignatureScheme (fourKeys "1:3") sk = true) ["k1"; "s2"].
Proof.
  assert (ProducerPrivateKeys (fourKeys "1:3") = Returns ["k1"; "s2"]) as Hrun
    by reflexivity.
  split; [exact Hrun|].
  destruct (ProducerPrivateKeys_returns_run_of_decoded_keys (fourKeys "1:3") _ Hrun)
    as (all & start & end_ & _ & _ & _ & _ & _ & Hw).
  exact Hw.
Defined.

Lemma ProducerPrivateKeys_range_selects_keys_witness :
  ProducerPrivateKeys (fourKeys "[1:3]") = Returns ["k1"; "s2"]
  /\ ProducerPrivateKeys (fourKeys "[2:]") = Returns ["s2"; "k3"]
  /\ ProducerPrivateKeys (fourKeys "[2:2]") = Returns []
  /\ ProducerPrivateKeys (fourKeys "[2:9]") = Panics.
Proof.
  split; [|split; [|split]].
  - destruct (ProducerPrivateKeys_range_selects_keys (fourKeys "[1:3]")
                ["k0"; "k1"; "s2"; "k3"] (Some 1) (Some 3)) as [Hrun _];
      [try reflexivity; simpl; lia ..|exact Hrun].
  - destruct (ProducerPrivateKeys_range_selects_keys (fourKeys "[2:]")
                ["k0"; "k1"; "s2"; "k3"] (Some 2) None) as [Hrun _];
      [try reflexivity; simpl; lia ..|exact Hrun].
  - destruct (ProducerPrivateKeys_range_selects_keys (fourKeys "[2:2]")
                ["k0"; "k1"; "s2"; "k3"] (Some 2) (Some 2)) as [Hrun _];
      [try reflexivity; simpl; lia ..|exact Hrun].
  - destruct (ProducerPrivateKeys_range_selects_keys (fourKeys "[2:9]")
                ["k0"; "k1"; "s2"; "k3"] (Some 2) (Some 9)) as [Hrun _];
      [try reflexivity; simpl; lia ..|exact Hrun].
Defined.

(** An empty range selects no key, a key of another type is refused even
    when the empty scheme name is listed, and the brackets may be left
    out. *)
Example ProducerPrivateKeys_edge_cases :
  ProducerAddress (fourKeys "[1:3]") = Returns ["io1k1"; "io1s2"]
  /\ ProducerPrivateKeys (mkConfig "x0" "" [""; "secp256k1"]) = Panics
  /\ ProducerPrivateKeys (fourKeys "[-1:2]") = Panics
  /\ ProducerPrivateKeys (fourKeys "[1:2:3]") = Panics
  /\ ProducerPrivateKeys (fourKeys "[ 1:2]") = Panics
  /\ ProducerPrivateKeys (fourKeys "]]1:+2[") = Returns ["k1"]
  /\ Split "" ","%char = [""]
  /\ strconv_Atoi "-0" = Ok 0
  /\ strconv_Atoi "9223372036854775808" <> Ok 9223372036854775808.
Proof. repeat split; discriminate. Qed.

End ConfigRuns.
